(** * CRD registration of pkg/k8s/apis/cilium.io/v2/client/register.go

    A shallow embedding of the reconciler that installs Cilium's
    CustomResourceDefinitions: the version gate [needsUpdate], the
    create / update / wait-for-established routine [createUpdateCRD], the
    per-kind descriptor builders and the orchestrator
    [CreateCustomResourceDefinitions].

    The API server is reached through an interface; it is modelled as a
    type class over an abstract world, and every call and every log line
    is recorded in a trace so that statements such as "no Update is
    issued" can be written down. *)

From Stdlib Require Import NArith Ascii String.
From stdpp Require Import gmap strings list fin_maps.

Local Open Scope string_scope.
Local Open Scope list_scope.

(** ** Errors *)

(** metav1.StatusReason, as far as register.go tells the reasons apart. *)
Inductive StatusReason :=
| StatusReasonUnknown
| StatusReasonNotFound
| StatusReasonAlreadyExists
| StatusReasonConflict.

(** The values of Go's [error] that reach this file: an API status error,
    wait.ErrWaitTimeout, and the string errors built by errors.New and
    fmt.Errorf.  A nil error is [None : option error]. *)
Inductive error :=
| StatusError (reason : StatusReason) (message : string)
| ErrWaitTimeout
| errorString (s : string).

(** err.Error() *)
Definition Error (e : error) : string :=
  match e with
  | StatusError _ m => m
  | ErrWaitTimeout => "timed out waiting for the condition"
  | errorString s => s
  end.

(** errors.IsNotFound and errors.IsAlreadyExists of apimachinery: the
    reason of the error is compared; a nil error has no reason. *)
Definition IsNotFound (err : option error) : bool :=
  match err with
  | Some (StatusError StatusReasonNotFound _) => true
  | _ => false
  end.

Definition IsAlreadyExists (err : option error) : bool :=
  match err with
  | Some (StatusError StatusReasonAlreadyExists _) => true
  | _ => false
  end.

Definition IsConflict (err : option error) : bool :=
  match err with
  | Some (StatusError StatusReasonConflict _) => true
  | _ => false
  end.

(** [needle] occurs in [hay]. *)
Definition contains (hay needle : string) : Prop :=
  ∃ before after, hay = before +:+ needle +:+ after.

(** ** Schema versions *)

Module versioncheck.

(** Modelled from the spec: package pkg/versioncheck (Version,
    MustVersion) and the semantic-version type it returns are not under
    src/.  The spec describes a schema version as a semantic version
    string such as "1.18" with the standard ordering; the model reads
    one to three dot-separated decimal numbers, a missing minor or patch
    number being zero, and orders versions by major, minor, patch. *)
Record semver := mkVersion { Major : N; Minor : N; Patch : N }.

Definition digit (a : ascii) : option N :=
  let n := N_of_ascii a in
  if ((48 <=? n) && (n <=? 57))%N then Some (n - 48)%N else None.

Fixpoint parseDigits (acc : N) (s : string) : option N :=
  match s with
  | EmptyString => Some acc
  | String a rest =>
      match digit a with
      | Some d => parseDigits (acc * 10 + d)%N rest
      | None => None
      end
  end.

(** A decimal number: at least one digit, digits only. *)
Definition parseUint (s : string) : option N :=
  match s with
  | EmptyString => None
  | _ => parseDigits 0%N s
  end.

(** strings.Split(s, ".") *)
Fixpoint splitDots (cur : string) (s : string) : list string :=
  match s with
  | EmptyString => [cur]
  | String a rest =>
      if Ascii.eqb a "."%char
      then cur :: splitDots EmptyString rest
      else splitDots (cur +:+ String a EmptyString) rest
  end.

Definition Version (v : string) : option semver :=
  match parseUint <$> splitDots EmptyString v with
  | [Some ma] => Some (mkVersion ma 0 0)
  | [Some ma; Some mi] => Some (mkVersion ma mi 0)
  | [Some ma; Some mi; Some pa] => Some (mkVersion ma mi pa)
  | _ => None
  end.

(** Compare of the semantic-version type: -1, 0 or 1. *)
Definition Compare (v o : semver) : comparison :=
  match (Major v ?= Major o)%N with
  | Eq => match (Minor v ?= Minor o)%N with
          | Eq => (Patch v ?= Patch o)%N
          | c => c
          end
  | c => c
  end.

Definition LT (v o : semver) : bool :=
  match Compare v o with Lt => true | _ => false end.

(** MustVersion panics when the string does not parse; its only use is
    at package initialisation, on a constant. *)
Definition MustVersion (v : string) : option semver := Version v.

End versioncheck.

(** ** The resource-definition objects (apiextensions/v1beta1) *)

Record CustomResourceDefinitionNames := {
  Plural : string;
  Singular : string;
  ShortNames : list string;
  Kind : string;
}.

(** The schema documents themselves are opaque here: register.go copies
    them and only tests the validation pointer against nil. *)
Record CustomResourceValidation := {
  OpenAPIV3Schema : option string;
}.

Record CustomResourceSubresources := {
  SubresourceStatus : bool;
  SubresourceScale : bool;
}.

Record CustomResourceColumnDefinition := {
  ColumnName : string;
  ColumnType : string;
  JSONPath : string;
}.

Record CustomResourceDefinitionSpec := {
  Group : string;
  Version : string;
  Names : CustomResourceDefinitionNames;
  Scope : string;
  Validation : option CustomResourceValidation;
  Subresources : option CustomResourceSubresources;
  AdditionalPrinterColumns : list CustomResourceColumnDefinition;
}.

(** metav1.ObjectMeta, the two fields register.go uses.  In the records
    below [Meta] is the embedded ObjectMeta, and [Type_] and [Status_]
    stand for the Go fields Type and Status. *)
Record ObjectMeta := {
  Name : string;
  Labels : gmap string string;
}.

(** Condition types and statuses are string types in Go. *)
Definition Established : string := "Established".
Definition NamesAccepted : string := "NamesAccepted".
Definition ConditionTrue : string := "True".
Definition ConditionFalse : string := "False".

Record CustomResourceDefinitionCondition := {
  Type_ : string;
  Status : string;
  Reason : string;
  Message : string;
}.

Record CustomResourceDefinitionStatus := {
  Conditions : list CustomResourceDefinitionCondition;
}.

Record CustomResourceDefinition := {
  Meta : ObjectMeta;
  Spec : CustomResourceDefinitionSpec;
  Status_ : CustomResourceDefinitionStatus;
}.

(** ** Constants of the package *)

(** k8sconst.GroupName; the constant lives in pkg/k8s/apis/cilium.io. *)
Definition CustomResourceDefinitionGroup : string := "cilium.io".
Definition CustomResourceDefinitionVersion : string := "v2".
Definition CustomResourceDefinitionSchemaVersion : string := "1.18".
Definition CustomResourceDefinitionSchemaVersionKey : string :=
  "io.cilium.k8s.crd.schema.version".

Definition SchemeGroupVersion_Group : string := CustomResourceDefinitionGroup.
Definition SchemeGroupVersion_Version : string := CustomResourceDefinitionVersion.

(** comparableCRDSchemaVersion = versioncheck.MustVersion("1.18").  The
    constant parses, so the package initialises without a panic. *)
Definition comparableCRDSchemaVersion : versioncheck.semver :=
  default (versioncheck.mkVersion 0 0 0)
          (versioncheck.MustVersion CustomResourceDefinitionSchemaVersion).

(** ** needsUpdate *)

Definition needsUpdate (clusterCRD : CustomResourceDefinition) : bool :=
  match Validation (Spec clusterCRD) with
  | None => true
  | Some _ =>
      match Labels (Meta clusterCRD) !! CustomResourceDefinitionSchemaVersionKey with
      | None => true
      | Some v =>
          match versioncheck.Version v with
          | None => true
          | Some clusterVersion =>
              versioncheck.LT clusterVersion comparableCRDSchemaVersion
          end
      end
  end.

(** ** The cluster, the clock and the trace *)

Inductive Level := DebugLevel | InfoLevel | ErrorLevel.

(** What a run does to the outside: the calls made on the clientset, with
    their arguments, and the lines written to the scoped logger (its
    "name" field, the error attached with WithError, the message). *)
Inductive Event :=
| EvGet (name : string)
| EvCreate (crd : CustomResourceDefinition)
| EvUpdate (crd : CustomResourceDefinition)
| EvDelete (name : string)
| EvLog (lvl : Level) (name : string) (err : option error) (msg : string).

(** clientset.ApiextensionsV1beta1().CustomResourceDefinitions(): the
    four calls register.go makes.  A call returns what the Go call
    returns, an object together with an error, and moves the world on. *)
Class Interface (W : Type) := {
  Get : string → W → (CustomResourceDefinition * option error) * W;
  Create : CustomResourceDefinition → W → (CustomResourceDefinition * option error) * W;
  Update : CustomResourceDefinition → W → (CustomResourceDefinition * option error) * W;
  Delete : string → W → option error * W;
}.

(** Modelled from the spec: wait.Poll (k8s.io/apimachinery) is not under
    src/.  The spec gives the loops a poll interval of 500 ms and a
    deadline of 60 s; how many times the timer fires before the deadline
    depends on how long the calls take, so the count is read off the
    world in which the poll starts. *)
Class Timer (W : Type) := {
  ticks : W → nat;
}.

Record State (W : Type) := mkState {
  world : W;
  trace : list Event;
}.
Arguments mkState {W} _ _.
Arguments world {W} _.
Arguments trace {W} _.

Definition M (W A : Type) : Type := State W → A * State W.

#[export] Instance M_ret {W} : MRet (M W) := λ A a s, (a, s).
#[export] Instance M_bind {W} : MBind (M W) :=
  λ A B f m s, let '(a, s') := m s in f a s'.

Definition emit {W} (e : Event) : M W unit :=
  λ s, (tt, mkState (world s) (trace s ++ [e])).

(** The variables [clusterCRD] and [err] of createUpdateCRD, which its two
    closures read and assign. *)
Record Captured := mkCaptured {
  clusterCRD : CustomResourceDefinition;
  err : option error;
}.

(** How a stretch of createUpdateCRD ends: with a return statement, or by
    falling through to the next stretch with the captured variables. *)
Inductive Flow :=
| Return (e : option error)
| Continue (l : Captured).

Section Reconciler.
Context {W : Type} `{!Interface W} `{!Timer W}.

Definition callGet (name : string) : M W (CustomResourceDefinition * option error) :=
  λ s, let '(r, w) := Get name (world s) in
       (r, mkState w (trace s ++ [EvGet name])).

Definition callCreate (crd : CustomResourceDefinition)
    : M W (CustomResourceDefinition * option error) :=
  λ s, let '(r, w) := Create crd (world s) in
       (r, mkState w (trace s ++ [EvCreate crd])).

Definition callUpdate (crd : CustomResourceDefinition)
    : M W (CustomResourceDefinition * option error) :=
  λ s, let '(r, w) := Update crd (world s) in
       (r, mkState w (trace s ++ [EvUpdate crd])).

Definition callDelete (name : string) : M W (option error) :=
  λ s, let '(r, w) := Delete name (world s) in
       (r, mkState w (trace s ++ [EvDelete name])).

(** Modelled from the spec: wait.Poll.  The condition runs once for
    every tick and once more when the deadline closes the timer; an
    error from the condition ends the poll with that error, a true
    result ends it with nil, and a run that is still not done at the
    deadline ends with ErrWaitTimeout. *)
Fixpoint pollLoop (n : nat)
    (condition : Captured → M W (bool * option error * Captured))
    (l : Captured) : M W (option error * Captured) :=
  '(ok, e, l') ← condition l;
  match e with
  | Some _ => mret (e, l')
  | None =>
      if ok : bool then mret (None, l')
      else match n with
           | O => mret (Some ErrWaitTimeout, l')
           | S n' => pollLoop n' condition l'
           end
  end.

Definition Poll (condition : Captured → M W (bool * option error * Captured))
    (l : Captured) : M W (option error * Captured) :=
  λ s, pollLoop (ticks (world s)) condition l s.

(** The closure of the update poll (register.go, lines 347-378). *)
Definition updateCondition (crdName : string) (crd : CustomResourceDefinition)
    (l : Captured) : M W (bool * option error * Captured) :=
  '(c, e) ← callGet (Name (Meta crd));
  match e with
  | Some _ => mret (false, e, mkCaptured c e)
  | None =>
      if needsUpdate c then
        emit (EvLog DebugLevel crdName None "CRD validation is different, updating it...");;
        let c' := {| Meta := {| Name := Name (Meta c); Labels := Labels (Meta crd) |};
                     Spec := Spec crd;
                     Status_ := Status_ c |} in
        '(_, e') ← callUpdate c';
        match e' with
        | None => mret (true, None, mkCaptured c' e')
        | Some _ =>
            emit (EvLog DebugLevel crdName e' "Unable to update CRD validation");;
            mret (false, e', mkCaptured c' e')
        end
      else mret (true, None, mkCaptured c e)
  end.

(** The loop over clusterCRD.Status.Conditions inside the closure of the
    establishment poll (lines 388-400): [Some r] when an entry makes the
    closure return [r], [None] when the loop runs off the list. *)
Fixpoint scanConditions (crdName : string)
    (conds : list CustomResourceDefinitionCondition) (l : Captured)
    : M W (option (bool * option error)) :=
  match conds with
  | [] => mret None
  | cond :: rest =>
      if String.eqb (Type_ cond) Established then
        if String.eqb (Status cond) ConditionTrue
        then mret (Some (true, err l))
        else scanConditions crdName rest l
      else if String.eqb (Type_ cond) NamesAccepted then
        if String.eqb (Status cond) ConditionFalse
        then emit (EvLog ErrorLevel crdName (Some (errorString (Reason cond)))
                         "Name conflict for CRD");;
             mret (Some (false, err l))
        else scanConditions crdName rest l
      else scanConditions crdName rest l
  end.

(** The closure of the establishment poll (lines 387-409). *)
Definition establishedCondition (crdName : string) (crd : CustomResourceDefinition)
    (l : Captured) : M W (bool * option error * Captured) :=
  r ← scanConditions crdName (Conditions (Status_ (clusterCRD l))) l;
  match r with
  | Some (done, e) => mret (done, e, l)
  | None =>
      '(c, e) ← callGet (Name (Meta crd));
      match e with
      | Some _ => mret (false, e, mkCaptured c e)
      | None => mret (false, e, mkCaptured c e)
      end
  end.

(** fmt.Errorf("unable to delete k8s %s CRD %s. Deleting CRD due: %s", ...) *)
Definition deleteErrorf (crdName : string) (deleteErr e : error) : error :=
  errorString ("unable to delete k8s " +:+ crdName +:+ " CRD " +:+ Error deleteErr
               +:+ ". Deleting CRD due: " +:+ Error e).

(** Lines 317-336: the first Get, the Create after a not-found, and the
    two early returns. *)
Definition fetchOrCreate (crdName : string) (crd : CustomResourceDefinition)
    : M W Flow :=
  '(c, e) ← callGet (Name (Meta crd));
  if IsNotFound e then
    emit (EvLog InfoLevel crdName None "Creating CRD (CustomResourceDefinition)...");;
    '(c', e') ← callCreate crd;
    if IsAlreadyExists e' then mret (Return None)
    else match e' with
         | Some _ => mret (Return e')
         | None => mret (Continue (mkCaptured c' e'))
         end
  else match e with
       | Some _ => mret (Return e)
       | None => mret (Continue (mkCaptured c e))
       end.

(** The condition of the if on lines 340-342; Go's && evaluates from the
    left and a map read of a missing key gives the empty string. *)
Definition updateGate (crd c : CustomResourceDefinition) : bool :=
  match Validation (Spec crd) with
  | None => false
  | Some _ =>
      if String.eqb (default EmptyString (Labels (Meta c) !! CustomResourceDefinitionSchemaVersionKey)) EmptyString
      then false
      else needsUpdate c
  end.

(** Lines 338-383: the update decision and the update poll. *)
Definition updatePhase (crdName : string) (crd : CustomResourceDefinition)
    (l : Captured) : M W Flow :=
  emit (EvLog DebugLevel crdName None
          "Checking if CRD (CustomResourceDefinition) needs update...");;
  if updateGate crd (clusterCRD l) then
    emit (EvLog InfoLevel crdName None "Updating CRD (CustomResourceDefinition)...");;
    '(e, l') ← Poll (updateCondition crdName crd) l;
    match e with
    | Some _ =>
        emit (EvLog ErrorLevel crdName e "Unable to update CRD");;
        mret (Return e)
    | None => mret (Continue (mkCaptured (clusterCRD l') e))
    end
  else mret (Continue l).

(** Lines 385-409: the establishment poll. *)
Definition establishedPoll (crdName : string) (crd : CustomResourceDefinition)
    (l : Captured) : M W (option error * Captured) :=
  emit (EvLog DebugLevel crdName None
          "Waiting for CRD (CustomResourceDefinition) to be available...");;
  Poll (establishedCondition crdName crd) l.

(** Lines 410-424: the Delete after a failed wait, and the final return. *)
Definition afterWait (crdName : string) (crd : CustomResourceDefinition)
    (e : option error) : M W (option error) :=
  match e with
  | Some waitErr =>
      deleteErr ← callDelete (Name (Meta crd));
      match deleteErr with
      | Some de => mret (Some (deleteErrorf crdName de waitErr))
      | None => mret e
      end
  | None =>
      emit (EvLog InfoLevel crdName None
              "CRD (CustomResourceDefinition) is installed and up-to-date");;
      mret None
  end.

(** Everything up to the establishment wait: either the function has
    returned, or the wait starts with the captured variables. *)
Definition beforeWait (crdName : string) (crd : CustomResourceDefinition)
    : M W Flow :=
  f ← fetchOrCreate crdName crd;
  match f with
  | Return e => mret (Return e)
  | Continue l => updatePhase crdName crd l
  end.

Definition createUpdateCRD (crdName : string) (crd : CustomResourceDefinition)
    : M W (option error) :=
  f ← beforeWait crdName crd;
  match f with
  | Return e => mret e
  | Continue l =>
      '(e, _) ← establishedPoll crdName crd l;
      afterWait crdName crd e
  end.

End Reconciler.

(** ** The per-kind builders and the orchestrator *)

(** The CRD documents compiled into the binary (the generated
    examplesCrds...YamlBytes accessors), after yaml.Unmarshal.  Reading or
    decoding one can only fail by a panic at start-up, so the builders take
    the decoded documents. *)
Record EmbeddedCRDs := {
  examplesCrdsCiliumnetworkpoliciesYaml : CustomResourceDefinition;
  examplesCrdsCiliumclusterwidenetworkpoliciesYaml : CustomResourceDefinition;
  examplesCrdsCiliumendpointsYaml : CustomResourceDefinition;
  examplesCrdsCiliumnodesYaml : CustomResourceDefinition;
  examplesCrdsCiliumidentitiesYaml : CustomResourceDefinition;
}.

(** option.IdentityAllocationModeCRD; the constant lives in pkg/option. *)
Definition IdentityAllocationModeCRD : string := "crd".

(** The ObjectMeta every builder writes: the derived name and the
    schema-version label. *)
Definition resObjectMeta (ciliumCRD : CustomResourceDefinition) : ObjectMeta :=
  {| Name := Plural (Names (Spec ciliumCRD)) +:+ "." +:+ SchemeGroupVersion_Group;
     Labels := {[ CustomResourceDefinitionSchemaVersionKey :=
                    CustomResourceDefinitionSchemaVersion ]} |}.

Definition resNames (ciliumCRD : CustomResourceDefinition) : CustomResourceDefinitionNames :=
  {| Plural := Plural (Names (Spec ciliumCRD));
     Singular := Singular (Names (Spec ciliumCRD));
     ShortNames := ShortNames (Names (Spec ciliumCRD));
     Kind := Kind (Names (Spec ciliumCRD)) |}.

(** [res] of createCNPCRD and of createCEPCRD. *)
Definition resWithColumns (ciliumCRD : CustomResourceDefinition) : CustomResourceDefinition :=
  {| Meta := resObjectMeta ciliumCRD;
     Spec := {| Group := SchemeGroupVersion_Group;
                Version := SchemeGroupVersion_Version;
                Names := resNames ciliumCRD;
                Scope := Scope (Spec ciliumCRD);
                Validation := Validation (Spec ciliumCRD);
                Subresources := Subresources (Spec ciliumCRD);
                AdditionalPrinterColumns := AdditionalPrinterColumns (Spec ciliumCRD) |};
     Status_ := {| Conditions := [] |} |}.

(** [res] of createCCNPCRD and of createNodeCRD: no printer columns. *)
Definition resPlain (ciliumCRD : CustomResourceDefinition) : CustomResourceDefinition :=
  {| Meta := resObjectMeta ciliumCRD;
     Spec := {| Group := SchemeGroupVersion_Group;
                Version := SchemeGroupVersion_Version;
                Names := resNames ciliumCRD;
                Scope := Scope (Spec ciliumCRD);
                Validation := Validation (Spec ciliumCRD);
                Subresources := Subresources (Spec ciliumCRD);
                AdditionalPrinterColumns := [] |};
     Status_ := {| Conditions := [] |} |}.

(** [res] of createIdentityCRD: the composite literal sets neither the
    printer columns nor Validation. *)
Definition resIdentity (ciliumCRD : CustomResourceDefinition) : CustomResourceDefinition :=
  {| Meta := resObjectMeta ciliumCRD;
     Spec := {| Group := SchemeGroupVersion_Group;
                Version := SchemeGroupVersion_Version;
                Names := resNames ciliumCRD;
                Scope := Scope (Spec ciliumCRD);
                Validation := None;
                Subresources := Subresources (Spec ciliumCRD);
                AdditionalPrinterColumns := [] |};
     Status_ := {| Conditions := [] |} |}.

Section Orchestrator.
Context {W : Type} `{!Interface W} `{!Timer W}.
Variable docs : EmbeddedCRDs.
(** option.Config.IdentityAllocationMode *)
Variable IdentityAllocationMode : string.

Definition createCNPCRD : M W (option error) :=
  createUpdateCRD "CiliumNetworkPolicy/v2"
    (resWithColumns (examplesCrdsCiliumnetworkpoliciesYaml docs)).

Definition createCCNPCRD : M W (option error) :=
  createUpdateCRD "CiliumClusterwideNetworkPolicy/v2"
    (resPlain (examplesCrdsCiliumclusterwidenetworkpoliciesYaml docs)).

Definition createCEPCRD : M W (option error) :=
  createUpdateCRD "v2.CiliumEndpoint"
    (resWithColumns (examplesCrdsCiliumendpointsYaml docs)).

Definition createNodeCRD : M W (option error) :=
  createUpdateCRD "v2.CiliumNode"
    (resPlain (examplesCrdsCiliumnodesYaml docs)).

Definition createIdentityCRD : M W (option error) :=
  createUpdateCRD "v2.CiliumIdentity"
    (resIdentity (examplesCrdsCiliumidentitiesYaml docs)).

Definition CreateCustomResourceDefinitions : M W (option error) :=
  e ← createCNPCRD;
  match e with
  | Some _ => mret e
  | None =>
  e ← createCCNPCRD;
  match e with
  | Some _ => mret e
  | None =>
  e ← createCEPCRD;
  match e with
  | Some _ => mret e
  | None =>
  e ← createNodeCRD;
  match e with
  | Some _ => mret e
  | None =>
  if String.eqb IdentityAllocationMode IdentityAllocationModeCRD then
    e ← createIdentityCRD;
    match e with
    | Some _ => mret e
    | None => mret None
    end
  else mret None
  end end end end.

(** The orchestrator in the spec's words: run the reconcilers of a list
    one after the other and stop at the first error. *)
Fixpoint runInOrder (steps : list (M W (option error))) : M W (option error) :=
  match steps with
  | [] => mret None
  | step :: rest =>
      e ← step;
      match e with
      | Some _ => mret e
      | None => runInOrder rest
      end
  end.

End Orchestrator.

(** ** A scripted cluster

    A clientset for running the reconciler on concrete inputs: every call
    answers with the next entry of a script, whatever the call, and the
    timer delivers a fixed number of ticks. *)
Module Fake.

Record World := mkWorld {
  script : list (CustomResourceDefinition * option error);
  budget : nat;
}.

Definition emptySpec : CustomResourceDefinitionSpec :=
  {| Group := EmptyString; Version := EmptyString;
     Names := {| Plural := EmptyString; Singular := EmptyString; ShortNames := []; Kind := EmptyString |};
     Scope := EmptyString; Validation := None; Subresources := None;
     AdditionalPrinterColumns := [] |}.

Definition emptyCRD : CustomResourceDefinition :=
  {| Meta := {| Name := EmptyString; Labels := ∅ |};
     Spec := emptySpec;
     Status_ := {| Conditions := [] |} |}.

Definition next (w : World) : (CustomResourceDefinition * option error) * World :=
  match script w with
  | [] => ((emptyCRD, Some (StatusError StatusReasonUnknown "script exhausted")), w)
  | r :: rest => (r, mkWorld rest (budget w))
  end.

#[export] Instance interface : Interface World := {
  Get _ w := next w;
  Create _ w := next w;
  Update _ w := next w;
  Delete _ w := let '(r, w') := next w in (snd r, w');
}.

#[export] Instance timer : Timer World := {
  ticks w := budget w;
}.

Definition start (sc : list (CustomResourceDefinition * option error)) (n : nat)
    : State World :=
  mkState (mkWorld sc n) [].

Definition schema : option CustomResourceValidation :=
  Some {| OpenAPIV3Schema := Some "{}" |}.

(** A live object named like the descriptor, with one label value, a
    validation schema or none, and a list of conditions. *)
Definition live (name : string) (labels : gmap string string)
    (val : option CustomResourceValidation)
    (conds : list CustomResourceDefinitionCondition) : CustomResourceDefinition :=
  {| Meta := {| Name := name; Labels := labels |};
     Spec := {| Group := "cilium.io"; Version := "v2";
                Names := {| Plural := "ciliumnodes"; Singular := "ciliumnode";
                            ShortNames := ["cn"]; Kind := "CiliumNode" |};
                Scope := "Cluster"; Validation := val; Subresources := None;
                AdditionalPrinterColumns := [] |};
     Status_ := {| Conditions := conds |} |}.

Definition versionLabel (v : string) : gmap string string :=
  {[ CustomResourceDefinitionSchemaVersionKey := v ]}.

Definition cond (ty st reason : string) : CustomResourceDefinitionCondition :=
  {| Type_ := ty; Status := st; Reason := reason; Message := EmptyString |}.

(** The descriptor createNodeCRD would build from a small document. *)
Definition nodeDoc : CustomResourceDefinition :=
  live EmptyString ∅ schema [].
Definition nodeCRD : CustomResourceDefinition := resPlain nodeDoc.
Definition nodeName : string := "ciliumnodes.cilium.io".

Definition notFound : error := StatusError StatusReasonNotFound "not found".
Definition alreadyExists : error := StatusError StatusReasonAlreadyExists "already exists".
Definition conflict : error :=
  StatusError StatusReasonConflict "the object has been modified".

End Fake.

Import Fake.


(** ** Vocabulary of the statements *)

(** The label a live object carries under the schema-version key. *)
Definition schemaLabel (c : CustomResourceDefinition) : option string :=
  Labels (Meta c) !! CustomResourceDefinitionSchemaVersionKey.

Definition isUpdate (ev : Event) : bool :=
  match ev with EvUpdate _ => true | _ => false end.

(** The events a computation adds to the trace, given the state it starts
    in; every operation of the monad only appends. *)
Definition issued {W A} (m : M W A) (s : State W) : list Event :=
  drop (length (trace s)) (trace (m s).2).

(** Every event the computation adds satisfies [P]. *)
Definition appends {W A} (P : Event → Prop) (m : M W A) : Prop :=
  ∀ s, ∃ evs, trace (m s).2 = trace s ++ evs ∧ Forall P evs.

(** The events that are not Update calls. *)
Definition notUpdate (ev : Event) : Prop := isUpdate ev = false.

Definition isEstablishedTrue (c : CustomResourceDefinitionCondition) : bool :=
  String.eqb (Type_ c) Established && String.eqb (Status c) ConditionTrue.

Definition isNamesRejected (c : CustomResourceDefinitionCondition) : bool :=
  String.eqb (Type_ c) NamesAccepted && String.eqb (Status c) ConditionFalse.

(** The entries on which the closure returns from inside its loop. *)
Definition decisive (c : CustomResourceDefinitionCondition) : bool :=
  isEstablishedTrue c || isNamesRejected c.

Definition nameConflictLog (crdName : string) (c : CustomResourceDefinitionCondition)
    : Event :=
  EvLog ErrorLevel crdName (Some (errorString (Reason c))) "Name conflict for CRD".

Definition checkingLog (crdName : string) : Event :=
  EvLog DebugLevel crdName None
    "Checking if CRD (CustomResourceDefinition) needs update...".

Definition waitingLog (crdName : string) : Event :=
  EvLog DebugLevel crdName None
    "Waiting for CRD (CustomResourceDefinition) to be available...".

Definition installedLog (crdName : string) : Event :=
  EvLog InfoLevel crdName None
    "CRD (CustomResourceDefinition) is installed and up-to-date".

(** The events of a pass over an object that is up to date and
    established. *)
Definition quietPass (crdName : string) (crd : CustomResourceDefinition)
    : list Event :=
  [EvGet (Name (Meta crd)); checkingLog crdName; waitingLog crdName;
   installedLog crdName].

Definition isDelete (ev : Event) : bool :=
  match ev with EvDelete _ => true | _ => false end.

(** The events that are not Delete calls. *)
Definition notDelete (ev : Event) : Prop := isDelete ev = false.

(** The events that concern the descriptor [crd] reconciled under the log
    name [crdName]: a Get or a Delete of its name, a Create of the
    descriptor itself, an Update of an object that carries the
    descriptor's labels and spec, a log line under its name. *)
Definition ownEvent (crdName : string) (crd : CustomResourceDefinition)
    (ev : Event) : Prop :=
  match ev with
  | EvGet n => n = Name (Meta crd)
  | EvDelete n => n = Name (Meta crd)
  | EvCreate c => c = crd
  | EvUpdate c => Labels (Meta c) = Labels (Meta crd) ∧ Spec c = Spec crd
  | EvLog _ n _ _ => n = crdName
  end.

(** The object the closure of the update poll submits: the fetched object
    with the descriptor's labels and spec written over its own. *)
Definition overwritten (crd c : CustomResourceDefinition) : CustomResourceDefinition :=
  {| Meta := {| Name := Name (Meta c); Labels := Labels (Meta crd) |};
     Spec := Spec crd;
     Status_ := Status_ c |}.

Definition creatingLog (crdName : string) : Event :=
  EvLog InfoLevel crdName None "Creating CRD (CustomResourceDefinition)...".

Definition updatingLog (crdName : string) : Event :=
  EvLog InfoLevel crdName None "Updating CRD (CustomResourceDefinition)...".

Definition differentLog (crdName : string) : Event :=
  EvLog DebugLevel crdName None "CRD validation is different, updating it...".

Definition updateRefusedLog (crdName : string) (e : error) : Event :=
  EvLog DebugLevel crdName (Some e) "Unable to update CRD validation".

Definition updateFailedLog (crdName : string) (e : error) : Event :=
  EvLog ErrorLevel crdName (Some e) "Unable to update CRD".

(** The first [j] iterations of a poll all answer "not done" without an
    error: the held variables and the state after them. *)
Fixpoint notDoneAfter {W} (j : nat)
    (condition : Captured → M W (bool * option error * Captured))
    (l : Captured) (s : State W) : option (Captured * State W) :=
  match j with
  | O => Some (l, s)
  | S j' =>
      match condition l s with
      | ((false, None, l'), s') => notDoneAfter j' condition l' s'
      | _ => None
      end
  end.

(** ** Inputs for runs on the scripted cluster *)

Definition rejectedThenEstablished : list CustomResourceDefinitionCondition :=
  [cond NamesAccepted ConditionFalse "ShortNamesConflict";
   cond Established ConditionTrue "InitialNamesAccepted"].

Definition serverError : error := StatusError StatusReasonUnknown "etcdserver: request timed out".
Definition forbidden : error := StatusError StatusReasonUnknown "delete is forbidden".

Definition acceptedAndEstablished : list CustomResourceDefinitionCondition :=
  [cond NamesAccepted ConditionTrue "NoConflicts";
   cond Established ConditionTrue "InitialNamesAccepted"].

(** A live object at the current schema version that never shows any
    condition. *)
Definition pendingObject : CustomResourceDefinition :=
  live nodeName (versionLabel "1.18") schema [].

(** A live object at the current schema version, established. *)
Definition currentObject : CustomResourceDefinition :=
  live nodeName (versionLabel "1.18") schema acceptedAndEstablished.

(** A live object at the current schema version, established, whose names
    were rejected after a later change; the API server keeps the
    conditions in the order in which it first set them. *)
Definition rejectedObject : CustomResourceDefinition :=
  live nodeName (versionLabel "1.18") schema rejectedThenEstablished.

(** The same object with its two conditions in the other order. *)
Definition establishedFirstObject : CustomResourceDefinition :=
  live nodeName (versionLabel "1.18") schema (reverse rejectedThenEstablished).

(** A live object left by an older agent. *)
Definition outdatedObject : CustomResourceDefinition :=
  live nodeName (versionLabel "1.17") schema acceptedAndEstablished.

(** A live object without a schema-version label. *)
Definition unlabelledObject : CustomResourceDefinition :=
  live nodeName ∅ schema acceptedAndEstablished.

(** The same small document for every kind. *)
Definition nodeDocs : EmbeddedCRDs :=
  {| examplesCrdsCiliumnetworkpoliciesYaml := nodeDoc;
     examplesCrdsCiliumclusterwidenetworkpoliciesYaml := nodeDoc;
     examplesCrdsCiliumendpointsYaml := nodeDoc;
     examplesCrdsCiliumnodesYaml := nodeDoc;
     examplesCrdsCiliumidentitiesYaml := nodeDoc |}.

(** * Properties *)

(** ** Running the monad in proofs *)

Ltac unfold_M :=
  unfold mbind, M_bind, mret, M_ret, emit, callGet, callCreate, callUpdate,
    callDelete in *.

Lemma run_bind {W A B} (m : M W A) (f : A → M W B) (s : State W) :
  (m ≫= f) s = f (m s).1 (m s).2.
Proof. unfold mbind, M_bind. by destruct (m s). Qed.

Lemma run_ret {W A} (a : A) (s : State W) : (mret a : M W A) s = (a, s).
Proof. reflexivity. Qed.

(** ** The ordering of schema versions *)

Lemma Compare_eq (v o : versioncheck.semver) :
  versioncheck.Compare v o = Eq ↔ v = o.
Proof.
  destruct v as [a b c], o as [a' b' c']. unfold versioncheck.Compare. simpl.
  split.
  - destruct (N.compare_spec a a'); try discriminate.
    destruct (N.compare_spec b b'); try discriminate.
    destruct (N.compare_spec c c'); try discriminate.
    by subst.
  - intros [= -> -> ->]. by rewrite !N.compare_refl.
Qed.

Lemma Compare_antisym (v o : versioncheck.semver) :
  versioncheck.Compare o v = CompOpp (versioncheck.Compare v o).
Proof.
  destruct v as [a b c], o as [a' b' c']. unfold versioncheck.Compare. simpl.
  rewrite (N.compare_antisym a a'), (N.compare_antisym b b'), (N.compare_antisym c c').
  destruct (a ?= a')%N, (b ?= b')%N, (c ?= c')%N; reflexivity.
Qed.

Lemma LT_false_iff (v o : versioncheck.semver) :
  versioncheck.LT v o = false ↔ v = o ∨ versioncheck.LT o v = true.
Proof.
  unfold versioncheck.LT. rewrite (Compare_antisym v o).
  pose proof (Compare_eq v o) as Heq.
  destruct (versioncheck.Compare v o); simpl; split; intros H;
    try discriminate; auto.
  - left. by apply Heq.
  - destruct H as [H | H]; [| discriminate].
    apply Heq in H. discriminate.
Qed.

Lemma comparableCRDSchemaVersion_eq :
  versioncheck.Version CustomResourceDefinitionSchemaVersion
  = Some comparableCRDSchemaVersion
  ∧ comparableCRDSchemaVersion = versioncheck.mkVersion 1 18 0.
Proof. split; reflexivity. Qed.

(** ** needsUpdate *)

(** C1.  needsUpdate answers true exactly when the live object has no
    validation schema, or no schema-version label, or a label that does
    not parse, or a label that parses to a version strictly less than the
    current schema version 1.18; it answers false exactly when validation
    is present and the label parses to a version equal to or greater than
    the current one. *)
Theorem needsUpdate_policy (c : CustomResourceDefinition) :
  (needsUpdate c = true ↔
     Validation (Spec c) = None
     ∨ schemaLabel c = None
     ∨ (∃ v, schemaLabel c = Some v ∧ versioncheck.Version v = None)
     ∨ (∃ v cv, schemaLabel c = Some v ∧ versioncheck.Version v = Some cv
                ∧ versioncheck.LT cv (versioncheck.mkVersion 1 18 0) = true))
  ∧ (needsUpdate c = false ↔
     Validation (Spec c) ≠ None
     ∧ ∃ v cv, schemaLabel c = Some v ∧ versioncheck.Version v = Some cv
               ∧ (cv = versioncheck.mkVersion 1 18 0
                  ∨ versioncheck.LT (versioncheck.mkVersion 1 18 0) cv = true)).
Proof.
  unfold needsUpdate, schemaLabel.
  destruct comparableCRDSchemaVersion_eq as [_ ->].
  destruct (Validation (Spec c)) as [val|].
  2: { split; split; intros H; auto; try discriminate. by destruct H as [H _]. }
  destruct (Labels (Meta c) !! CustomResourceDefinitionSchemaVersionKey) as [v|].
  2: { split; split; intros H; auto; try discriminate.
       by destruct H as (_ & ? & ? & ? & _). }
  destruct (versioncheck.Version v) as [cv|] eqn:Hv.
  2: { split; split; intros H; try discriminate.
       - right; right; left. eauto.
       - reflexivity.
       - destruct H as (_ & v' & cv' & [= <-] & Hp & _). congruence. }
  split; split.
  - intros H. right; right; right. eauto.
  - intros [H | [H | [(v' & [= <-] & H) | (v' & cv' & [= <-] & H & Hlt)]]];
      try discriminate; congruence.
  - intros H. split; [done |]. exists v, cv. repeat split; try done.
    by apply LT_false_iff.
  - intros (_ & v' & cv' & [= <-] & H & Hge).
    assert (cv' = cv) as -> by congruence. by apply LT_false_iff.
Qed.

Example needsUpdate_older :
  needsUpdate (live nodeName (versionLabel "1.17") schema []) = true.
Proof. reflexivity. Qed.

Example needsUpdate_equal :
  needsUpdate (live nodeName (versionLabel "1.18") schema []) = false.
Proof. reflexivity. Qed.

Example needsUpdate_newer :
  needsUpdate (live nodeName (versionLabel "1.19.1") schema []) = false.
Proof. reflexivity. Qed.

Example needsUpdate_compares_numbers :
  needsUpdate (live nodeName (versionLabel "1.9") schema []) = true.
Proof. reflexivity. Qed.

Example needsUpdate_unparsable :
  needsUpdate (live nodeName (versionLabel "latest") schema []) = true.
Proof. reflexivity. Qed.

Example needsUpdate_no_label :
  needsUpdate (live nodeName ∅ schema []) = true.
Proof. reflexivity. Qed.

Example needsUpdate_no_validation :
  needsUpdate (live nodeName (versionLabel "1.18") None []) = true.
Proof. reflexivity. Qed.

(** ** Create race *)

Section CreateRace.
Context {W : Type} `{!Interface W} `{!Timer W}.

(** C2.  When the first Get reports not-found and the Create that
    follows reports already-exists, createUpdateCRD returns nil at once:
    the run consists of the Get, the log line and the Create, and no
    Update is issued. *)
Theorem create_race_returns_nil (crdName : string)
    (crd c1 c2 : CustomResourceDefinition) (e1 e2 : option error)
    (s : State W) (w1 w2 : W) :
  Get (Name (Meta crd)) (world s) = ((c1, e1), w1) →
  IsNotFound e1 = true →
  Create crd w1 = ((c2, e2), w2) →
  IsAlreadyExists e2 = true →
  createUpdateCRD crdName crd s
  = (None,
     mkState w2
       (trace s ++
          [EvGet (Name (Meta crd));
           EvLog InfoLevel crdName None "Creating CRD (CustomResourceDefinition)...";
           EvCreate crd]))
  ∧ Forall (λ ev, isUpdate ev = false) (issued (createUpdateCRD crdName crd) s).
Proof.
  intros HG HNF HC HAE.
  assert (createUpdateCRD crdName crd s
          = (None,
             mkState w2
               (trace s ++
                  [EvGet (Name (Meta crd));
                   EvLog InfoLevel crdName None "Creating CRD (CustomResourceDefinition)...";
                   EvCreate crd]))) as Hrun.
  { unfold createUpdateCRD, beforeWait, fetchOrCreate. unfold_M.
    rewrite HG. simpl. rewrite HNF. simpl. rewrite HC. simpl. rewrite HAE.
    by rewrite <- !app_assoc. }
  split; [exact Hrun |].
  unfold issued. rewrite Hrun. simpl. rewrite drop_app_length.
  repeat constructor.
Qed.

End CreateRace.

(** A run of the create race on the scripted cluster. *)
Lemma create_race_returns_nil_witness :
  createUpdateCRD "v2.CiliumNode" nodeCRD
    (start [(emptyCRD, Some notFound); (emptyCRD, Some alreadyExists)] 119)
  = (None,
     mkState (mkWorld [] 119)
       [EvGet nodeName;
        EvLog InfoLevel "v2.CiliumNode" None "Creating CRD (CustomResourceDefinition)...";
        EvCreate nodeCRD])
  ∧ Forall (λ ev, isUpdate ev = false)
      (issued (createUpdateCRD "v2.CiliumNode" nodeCRD)
         (start [(emptyCRD, Some notFound); (emptyCRD, Some alreadyExists)] 119)).
Proof.
  apply (create_race_returns_nil "v2.CiliumNode" nodeCRD emptyCRD emptyCRD
           (Some notFound) (Some alreadyExists)
           (start [(emptyCRD, Some notFound); (emptyCRD, Some alreadyExists)] 119)
           (mkWorld [(emptyCRD, Some alreadyExists)] 119) (mkWorld [] 119));
    reflexivity.
Defined.

(** ** Computations only append to the trace *)

Section Appends.
Context {W : Type} `{!Interface W} `{!Timer W}.

Lemma appends_issued {A} (P : Event → Prop) (m : M W A) (s : State W) :
  appends (W:=W) P m → Forall P (issued m s).
Proof.
  intros H. destruct (H s) as (evs & Heq & HP).
  unfold issued. rewrite Heq. by rewrite drop_app_length.
Qed.

Lemma appends_ret {A} (P : Event → Prop) (a : A) : appends (W:=W) P (mret a : M W A).
Proof. intros s. exists []. simpl. by rewrite app_nil_r. Qed.

Lemma appends_bind {A B} (P : Event → Prop) (m : M W A) (f : A → M W B) :
  appends (W:=W) P m → (∀ a, appends (W:=W) P (f a)) → appends (W:=W) P (m ≫= f).
Proof.
  intros Hm Hf s. rewrite run_bind.
  destruct (Hm s) as (evs1 & H1 & HP1).
  destruct (Hf (m s).1 (m s).2) as (evs2 & H2 & HP2).
  exists (evs1 ++ evs2). split.
  - by rewrite H2, H1, app_assoc.
  - by apply Forall_app.
Qed.

Lemma appends_emit (P : Event → Prop) (ev : Event) : P ev → appends (W:=W) P (emit ev : M W unit).
Proof. intros H s. exists [ev]. split; [done | by constructor]. Qed.

Lemma appends_callGet (P : Event → Prop) (name : string) :
  P (EvGet name) → appends (W:=W) P (callGet name).
Proof.
  intros H s. exists [EvGet name]. unfold callGet.
  destruct (Get name (world s)). split; [done | by constructor].
Qed.

Lemma appends_callCreate (P : Event → Prop) (crd : CustomResourceDefinition) :
  P (EvCreate crd) → appends (W:=W) P (callCreate crd).
Proof.
  intros H s. exists [EvCreate crd]. unfold callCreate.
  destruct (Create crd (world s)). split; [done | by constructor].
Qed.

Lemma appends_callDelete (P : Event → Prop) (name : string) :
  P (EvDelete name) → appends (W:=W) P (callDelete name).
Proof.
  intros H s. exists [EvDelete name]. unfold callDelete.
  destruct (Delete name (world s)). split; [done | by constructor].
Qed.

Lemma appends_pollLoop (P : Event → Prop)
    (condition : Captured → M W (bool * option error * Captured)) :
  (∀ l, appends (W:=W) P (condition l)) →
  ∀ n l, appends (W:=W) P (pollLoop n condition l).
Proof.
  intros Hc. induction n as [| n IH]; intros l; simpl;
    (apply appends_bind; [apply Hc |]);
    intros [[ok e] l']; destruct e; try apply appends_ret;
    destruct ok; try apply appends_ret.
  apply IH.
Qed.

Lemma appends_Poll (P : Event → Prop)
    (condition : Captured → M W (bool * option error * Captured)) (l : Captured) :
  (∀ l, appends (W:=W) P (condition l)) → appends (W:=W) P (Poll condition l).
Proof. intros Hc s. unfold Poll. by apply appends_pollLoop. Qed.

Lemma fetchOrCreate_notUpdate (crdName : string) (crd : CustomResourceDefinition) :
  appends (W:=W) notUpdate (fetchOrCreate crdName crd).
Proof.
  unfold fetchOrCreate.
  apply appends_bind; [by apply appends_callGet |]. intros [c e].
  destruct (IsNotFound e).
  - apply appends_bind; [by apply appends_emit |]. intros _.
    apply appends_bind; [by apply appends_callCreate |]. intros [c' e'].
    destruct (IsAlreadyExists e'); [apply appends_ret |].
    destruct e'; apply appends_ret.
  - destruct e; apply appends_ret.
Qed.

Lemma scanConditions_notUpdate (crdName : string)
    (conds : list CustomResourceDefinitionCondition) (l : Captured) :
  appends (W:=W) notUpdate (scanConditions crdName conds l).
Proof.
  induction conds as [| cond rest IH]; simpl; [apply appends_ret |].
  destruct (String.eqb (Type_ cond) Established).
  - destruct (String.eqb (Status cond) ConditionTrue); [apply appends_ret | apply IH].
  - destruct (String.eqb (Type_ cond) NamesAccepted); [| apply IH].
    destruct (String.eqb (Status cond) ConditionFalse); [| apply IH].
    apply appends_bind; [by apply appends_emit |]. intros _. apply appends_ret.
Qed.

Lemma establishedCondition_notUpdate (crdName : string)
    (crd : CustomResourceDefinition) (l : Captured) :
  appends (W:=W) notUpdate (establishedCondition crdName crd l).
Proof.
  unfold establishedCondition.
  apply appends_bind; [apply scanConditions_notUpdate |].
  intros [[done e] |]; [apply appends_ret |].
  apply appends_bind; [by apply appends_callGet |]. intros [c e].
  destruct e; apply appends_ret.
Qed.

Lemma establishedPoll_notUpdate (crdName : string)
    (crd : CustomResourceDefinition) (l : Captured) :
  appends (W:=W) notUpdate (establishedPoll crdName crd l).
Proof.
  unfold establishedPoll.
  apply appends_bind; [by apply appends_emit |]. intros _.
  apply appends_Poll. intros l'. apply establishedCondition_notUpdate.
Qed.

Lemma afterWait_notUpdate (crdName : string) (crd : CustomResourceDefinition)
    (e : option error) :
  appends (W:=W) notUpdate (afterWait crdName crd e).
Proof.
  unfold afterWait. destruct e.
  - apply appends_bind; [by apply appends_callDelete |].
    intros [de |]; apply appends_ret.
  - apply appends_bind; [by apply appends_emit |]. intros _. apply appends_ret.
Qed.

(** With the gate closed the update phase is one log line. *)
Lemma updatePhase_gate_closed (crdName : string) (crd : CustomResourceDefinition)
    (l : Captured) (s : State W) :
  updateGate crd (clusterCRD l) = false →
  updatePhase crdName crd l s
  = (Continue l,
     mkState (world s)
       (trace s ++ [EvLog DebugLevel crdName None
                      "Checking if CRD (CustomResourceDefinition) needs update..."])).
Proof. intros Hg. unfold updatePhase. unfold_M. simpl. by rewrite Hg. Qed.

(** A run in which the gate stays closed issues no Update. *)
Lemma createUpdateCRD_notUpdate (crdName : string) (crd : CustomResourceDefinition) :
  (∀ c, updateGate crd c = false) →
  appends (W:=W) notUpdate (createUpdateCRD crdName crd).
Proof.
  intros Hg. unfold createUpdateCRD, beforeWait.
  apply appends_bind.
  - apply appends_bind; [apply fetchOrCreate_notUpdate |].
    intros [e | l]; [apply appends_ret |].
    intros s. rewrite updatePhase_gate_closed by apply Hg.
    eexists. split; [reflexivity | by repeat constructor].
  - intros [e | l]; [apply appends_ret |].
    apply appends_bind; [apply establishedPoll_notUpdate |].
    intros [e l']. apply afterWait_notUpdate.
Qed.

(** C9.  The descriptor createIdentityCRD builds has no validation
    schema; the gate of the update phase is therefore closed whatever
    the live object is, and a run of createIdentityCRD issues no Update,
    on any cluster and from any state. *)
Theorem identity_never_updated (docs : EmbeddedCRDs) (s : State W) :
  Validation (Spec (resIdentity (examplesCrdsCiliumidentitiesYaml docs))) = None
  ∧ (∀ c, updateGate (resIdentity (examplesCrdsCiliumidentitiesYaml docs)) c = false)
  ∧ Forall (λ ev, isUpdate ev = false) (issued (createIdentityCRD docs) s).
Proof.
  split; [reflexivity |]. split; [reflexivity |].
  apply (appends_issued notUpdate). unfold createIdentityCRD.
  by apply createUpdateCRD_notUpdate.
Qed.

End Appends.

(** ** One iteration of the establishment wait *)

Section EstablishmentWait.
Context {W : Type} `{!Interface W} `{!Timer W}.

Lemma scanConditions_find (crdName : string)
    (conds : list CustomResourceDefinitionCondition) (l : Captured) (s : State W) :
  scanConditions crdName conds l s
  = match find decisive conds with
    | Some c =>
        if isEstablishedTrue c then (Some (true, err l), s)
        else (Some (false, err l),
              mkState (world s) (trace s ++ [nameConflictLog crdName c]))
    | None => (None, s)
    end.
Proof.
  induction conds as [| c rest IH]; simpl; [reflexivity |].
  unfold decisive, isEstablishedTrue, isNamesRejected.
  destruct (String.eqb_spec (Type_ c) Established) as [Hty | Hty].
  - rewrite Hty. simpl.
    destruct (String.eqb (Status c) ConditionTrue) eqn:Hst; simpl.
    + by rewrite Hty, Hst.
    + apply IH.
  - simpl. destruct (String.eqb (Type_ c) NamesAccepted) eqn:Hna; simpl; [| apply IH].
    destruct (String.eqb (Status c) ConditionFalse) eqn:Hsf; simpl; [| apply IH].
    apply String.eqb_neq in Hty. by rewrite Hty.
Qed.

(** C10.  An iteration of the establishment wait acts on the first entry
    of the condition list, in list order, that is Established=true or
    NamesAccepted=false.  If that entry is Established=true the
    iteration reports done, with nothing issued; if it is
    NamesAccepted=false the iteration reports not done after the one log
    line, whatever entries follow, and the world is left alone: no Get.
    Only when the list has no such entry is the live object fetched
    again. *)
Theorem establishedCondition_first_match (crdName : string)
    (crd : CustomResourceDefinition) (l : Captured) (s : State W) :
  establishedCondition crdName crd l s
  = match find decisive (Conditions (Status_ (clusterCRD l))) with
    | Some c =>
        if isEstablishedTrue c then ((true, err l, l), s)
        else ((false, err l, l),
              mkState (world s) (trace s ++ [nameConflictLog crdName c]))
    | None =>
        let '((c, e), w) := Get (Name (Meta crd)) (world s) in
        ((false, e, mkCaptured c e),
         mkState w (trace s ++ [EvGet (Name (Meta crd))]))
    end.
Proof.
  unfold establishedCondition. rewrite run_bind, scanConditions_find.
  destruct (find decisive (Conditions (Status_ (clusterCRD l)))) as [c |].
  - by destruct (isEstablishedTrue c).
  - simpl. unfold_M.
    destruct (Get (Name (Meta crd)) (world s)) as [[c e] w]. simpl.
    by destruct e.
Qed.

(** The same in terms of positions in the list. *)
Lemma find_decisive_at (pre post : list CustomResourceDefinitionCondition)
    (c : CustomResourceDefinitionCondition) :
  Forall (λ x, decisive x = false) pre →
  decisive c = true →
  find decisive (pre ++ c :: post) = Some c.
Proof.
  intros Hpre Hc. induction Hpre as [| x pre Hx _ IH]; simpl.
  - by rewrite Hc.
  - by rewrite Hx.
Qed.

Lemma find_decisive_none (conds : list CustomResourceDefinitionCondition) :
  Forall (λ x, decisive x = false) conds → find decisive conds = None.
Proof. induction 1 as [| x rest Hx _ IH]; simpl; [done | by rewrite Hx]. Qed.

Lemma establishedCondition_established_first (crdName : string)
    (crd : CustomResourceDefinition) (l : Captured) (s : State W)
    (pre post : list CustomResourceDefinitionCondition)
    (c : CustomResourceDefinitionCondition) :
  Conditions (Status_ (clusterCRD l)) = pre ++ c :: post →
  Forall (λ x, decisive x = false) pre →
  isEstablishedTrue c = true →
  establishedCondition crdName crd l s = ((true, err l, l), s).
Proof.
  intros Hl Hpre Hc. rewrite establishedCondition_first_match, Hl.
  rewrite find_decisive_at; [by rewrite Hc | done |].
  unfold decisive. by rewrite Hc.
Qed.

Lemma establishedCondition_rejected_first (crdName : string)
    (crd : CustomResourceDefinition) (l : Captured) (s : State W)
    (pre post : list CustomResourceDefinitionCondition)
    (c : CustomResourceDefinitionCondition) :
  Conditions (Status_ (clusterCRD l)) = pre ++ c :: post →
  Forall (λ x, decisive x = false) pre →
  isNamesRejected c = true →
  establishedCondition crdName crd l s
  = ((false, err l, l), mkState (world s) (trace s ++ [nameConflictLog crdName c])).
Proof.
  intros Hl Hpre Hc. rewrite establishedCondition_first_match, Hl.
  rewrite find_decisive_at; [| done | unfold decisive; rewrite Hc; apply orb_true_r].
  assert (isEstablishedTrue c = false) as ->; [| done].
  unfold isEstablishedTrue, isNamesRejected in *.
  apply andb_true_iff in Hc as [Hty _]. apply String.eqb_eq in Hty.
  by rewrite Hty.
Qed.

(** Once the held object shows NamesAccepted=false first, with no error
    pending, the closure answers "not done" at every tick that is left
    and once more at the deadline, logging the reason each time and
    issuing nothing else; the poll can only end with the timeout. *)
Lemma pollLoop_names_rejected (crdName : string)
    (crd : CustomResourceDefinition) (n : nat) (l : Captured) (s : State W)
    (c : CustomResourceDefinitionCondition) :
  err l = None →
  find decisive (Conditions (Status_ (clusterCRD l))) = Some c →
  isNamesRejected c = true →
  pollLoop n (establishedCondition crdName crd) l s
  = ((Some ErrWaitTimeout, l),
     mkState (world s) (trace s ++ replicate (S n) (nameConflictLog crdName c))).
Proof.
  intros He Hfind Hc.
  assert (isEstablishedTrue c = false) as Hne.
  { unfold isEstablishedTrue, isNamesRejected in *.
    apply andb_true_iff in Hc as [Hty _]. apply String.eqb_eq in Hty.
    by rewrite Hty. }
  revert s.
  induction n as [| n IH]; intros s; simpl; rewrite run_bind;
    rewrite establishedCondition_first_match, Hfind, Hne, He; simpl.
  - reflexivity.
  - rewrite IH. simpl. by rewrite <- app_assoc.
Qed.

End EstablishmentWait.

(** ** Strings *)

Lemma append_assoc (a b c : string) : (a +:+ b) +:+ c = a +:+ b +:+ c.
Proof.
  induction a as [| x a IH]; [reflexivity |].
  change (String x ((a +:+ b) +:+ c) = String x (a +:+ b +:+ c)).
  by rewrite IH.
Qed.

Lemma append_nil_r (a : string) : a +:+ EmptyString = a.
Proof.
  induction a as [| x a IH]; [reflexivity |].
  change (String x (a +:+ EmptyString) = String x a).
  by rewrite IH.
Qed.

Lemma deleteErrorf_contains (crdName : string) (de e : error) :
  contains (Error (deleteErrorf crdName de e)) (Error de)
  ∧ contains (Error (deleteErrorf crdName de e)) (Error e).
Proof.
  unfold contains, deleteErrorf. cbn [Error]. split.
  - exists ("unable to delete k8s " +:+ crdName +:+ " CRD "),
           (". Deleting CRD due: " +:+ Error e).
    by rewrite !append_assoc.
  - exists ("unable to delete k8s " +:+ crdName +:+ " CRD " +:+ Error de
            +:+ ". Deleting CRD due: "), EmptyString.
    by rewrite append_nil_r, !append_assoc.
Qed.

(** ** The phases of createUpdateCRD *)

Section Phases.
Context {W : Type} `{!Interface W} `{!Timer W}.

Lemma createUpdateCRD_from_wait (crdName : string) (crd : CustomResourceDefinition)
    (s s0 : State W) (l : Captured) :
  beforeWait crdName crd s = (Continue l, s0) →
  createUpdateCRD crdName crd s
  = (establishedPoll crdName crd l ≫= λ '(e, _), afterWait crdName crd e) s0.
Proof. intros H. unfold createUpdateCRD. by rewrite run_bind, H. Qed.

(** C4.  When a run of createUpdateCRD reaches the establishment wait
    and the poll ends with an error, a Delete for the descriptor's name
    is issued next and the run returns an error: the error of the wait if
    the Delete succeeds, and otherwise one error whose text contains both
    the text of the delete error and the text of the wait error. *)
Theorem failed_wait_deletes (crdName : string) (crd : CustomResourceDefinition)
    (s s0 s1 : State W) (l l1 : Captured) (e : error)
    (deleteErr : option error) (w2 : W) :
  beforeWait crdName crd s = (Continue l, s0) →
  establishedPoll crdName crd l s0 = ((Some e, l1), s1) →
  Delete (Name (Meta crd)) (world s1) = (deleteErr, w2) →
  ∃ r,
    createUpdateCRD crdName crd s
    = (Some r, mkState w2 (trace s1 ++ [EvDelete (Name (Meta crd))]))
    ∧ match deleteErr with
      | None => r = e
      | Some de => contains (Error r) (Error de) ∧ contains (Error r) (Error e)
      end.
Proof.
  intros Hb Hp Hd.
  rewrite (createUpdateCRD_from_wait _ _ _ _ _ Hb), run_bind, Hp. simpl.
  unfold_M. rewrite Hd. destruct deleteErr as [de |]; simpl.
  - eexists. split; [reflexivity |]. apply deleteErrorf_contains.
  - by eexists.
Qed.

Lemma updateGate_true_iff (crd c : CustomResourceDefinition) :
  updateGate crd c = true ↔
    Validation (Spec crd) ≠ None
    ∧ (∃ v, schemaLabel c = Some v ∧ v ≠ EmptyString)
    ∧ needsUpdate c = true.
Proof.
  unfold updateGate, schemaLabel.
  destruct (Validation (Spec crd)) as [val |].
  2: { split; [discriminate | by intros [? _]]. }
  destruct (Labels (Meta c) !! CustomResourceDefinitionSchemaVersionKey) as [v |];
    simpl.
  2: { split; [discriminate | by intros (_ & (? & ? & _) & _)]. }
  destruct (String.eqb_spec v EmptyString) as [-> | Hv].
  - split; [discriminate |]. by intros (_ & (? & [= <-] & ?) & _).
  - split.
    + intros H. repeat split; eauto.
    + by intros (_ & _ & H).
Qed.

(** C6.  After the fetch-or-create step, if the new descriptor has no
    validation schema, or the live object has no schema-version label,
    or an empty one, then the update phase is the one "checking" log
    line: no poll, no Get, no Update; and the run continues with the
    establishment wait on the object that was fetched. *)
Theorem update_phase_skipped (crdName : string) (crd : CustomResourceDefinition)
    (s s0 : State W) (l : Captured) :
  fetchOrCreate crdName crd s = (Continue l, s0) →
  Validation (Spec crd) = None
  ∨ schemaLabel (clusterCRD l) = None
  ∨ schemaLabel (clusterCRD l) = Some EmptyString →
  updatePhase crdName crd l s0
  = (Continue l, mkState (world s0) (trace s0 ++ [checkingLog crdName]))
  ∧ createUpdateCRD crdName crd s
    = (establishedPoll crdName crd l ≫= λ '(e, _), afterWait crdName crd e)
        (mkState (world s0) (trace s0 ++ [checkingLog crdName])).
Proof.
  intros Hf Hskip.
  assert (updateGate crd (clusterCRD l) = false) as Hg.
  { destruct (updateGate crd (clusterCRD l)) eqn:Hg; [| done].
    apply updateGate_true_iff in Hg as (Hv & (v & Hl & Hne) & _).
    destruct Hskip as [? | [? | ?]]; congruence. }
  assert (updatePhase crdName crd l s0
          = (Continue l, mkState (world s0) (trace s0 ++ [checkingLog crdName])))
    as Hu.
  { unfold updatePhase. unfold_M. simpl. by rewrite Hg. }
  split; [exact Hu |].
  apply createUpdateCRD_from_wait. unfold beforeWait.
  by rewrite run_bind, Hf.
Qed.

Lemma up_to_date_pass (crdName : string) (crd live : CustomResourceDefinition)
    (c : CustomResourceDefinitionCondition) (s : State W) (w1 : W) :
  needsUpdate live = false →
  find decisive (Conditions (Status_ live)) = Some c →
  isEstablishedTrue c = true →
  Get (Name (Meta crd)) (world s) = ((live, None), w1) →
  createUpdateCRD crdName crd s
  = (None, mkState w1 (trace s ++ quietPass crdName crd)).
Proof.
  intros Hnu Hfind Hc HG.
  assert (updateGate crd live = false) as Hg.
  { unfold updateGate. rewrite Hnu. destruct (Validation (Spec crd)); [| done].
    by destruct (String.eqb _ _). }
  unfold createUpdateCRD, beforeWait, fetchOrCreate, updatePhase, establishedPoll.
  unfold_M. rewrite HG. simpl. rewrite Hg. simpl.
  unfold Poll. simpl. destruct (ticks w1); simpl;
    rewrite run_bind, establishedCondition_first_match; simpl;
    rewrite Hfind, Hc; simpl; unfold afterWait, quietPass; unfold_M; simpl;
    by rewrite <- !app_assoc.
Qed.

(** Two passes of createUpdateCRD in a row over a live object that is up
    to date and whose first decisive condition is Established=true: both
    passes return nil, each consists of one Get and three log lines, and
    no Update is issued in either. *)
Theorem idempotent_when_established_first (crdName : string)
    (crd live : CustomResourceDefinition)
    (c : CustomResourceDefinitionCondition) (s : State W) (w1 w2 : W) :
  needsUpdate live = false →
  find decisive (Conditions (Status_ live)) = Some c →
  isEstablishedTrue c = true →
  Get (Name (Meta crd)) (world s) = ((live, None), w1) →
  Get (Name (Meta crd)) w1 = ((live, None), w2) →
  let s1 := mkState w1 (trace s ++ quietPass crdName crd) in
  let s2 := mkState w2 (trace s1 ++ quietPass crdName crd) in
  createUpdateCRD crdName crd s = (None, s1)
  ∧ createUpdateCRD crdName crd s1 = (None, s2)
  ∧ Forall (λ ev, isUpdate ev = false) (issued (createUpdateCRD crdName crd) s)
  ∧ Forall (λ ev, isUpdate ev = false) (issued (createUpdateCRD crdName crd) s1).
Proof.
  intros Hnu Hfind Hc HG1 HG2 s1 s2.
  pose proof (up_to_date_pass crdName crd live c s w1 Hnu Hfind Hc HG1) as H1.
  pose proof (up_to_date_pass crdName crd live c s1 w2 Hnu Hfind Hc HG2) as H2.
  repeat split; try done.
  - unfold issued. rewrite H1. simpl. rewrite drop_app_length.
    by repeat constructor.
  - unfold issued. rewrite H2. simpl. rewrite drop_app_length.
    by repeat constructor.
Qed.

End Phases.

(** ** A name conflict during the establishment wait *)

Section NameConflict.
Context {W : Type} `{!Interface W} `{!Timer W}.

Lemma pollLoop_skip (condition : Captured → M W (bool * option error * Captured))
    (j n : nat) (l l' : Captured) (s s' : State W) :
  notDoneAfter j condition l s = Some (l', s') →
  pollLoop (j + n) condition l s = pollLoop n condition l' s'.
Proof.
  revert l s. induction j as [| j IH]; intros l s; simpl.
  - by intros [= <- <-].
  - rewrite run_bind.
    destruct (condition l s) as [[[ok e] l1] s1]; simpl.
    destruct ok; [discriminate |]. destruct e; [discriminate |]. apply IH.
Qed.

(** No error is pending when the wait starts. *)
Lemma beforeWait_continue_err (crdName : string) (crd : CustomResourceDefinition)
    (s s0 : State W) (l : Captured) :
  beforeWait crdName crd s = (Continue l, s0) → err l = None.
Proof.
  unfold beforeWait, fetchOrCreate, updatePhase. unfold_M.
  destruct (Get (Name (Meta crd)) (world s)) as [[c e] w]. simpl.
  destruct (IsNotFound e); simpl.
  - destruct (Create crd w) as [[c' e'] w']. simpl.
    destruct (IsAlreadyExists e'); simpl; [discriminate |].
    destruct e'; simpl; [discriminate |].
    destruct (updateGate crd c'); simpl; [| by intros [= <- _]].
    destruct (Poll _ _ _) as [[pe l'] s1]. simpl.
    destruct pe; simpl; [discriminate | by intros [= <- _]].
  - destruct e; simpl; [discriminate |].
    destruct (updateGate crd c); simpl; [| by intros [= <- _]].
    destruct (Poll _ _ _) as [[pe l'] s1]. simpl.
    destruct pe; simpl; [discriminate | by intros [= <- _]].
Qed.

(** Iterations of the wait that answer "not done" without an error leave
    no error pending. *)
Lemma notDoneAfter_err (crdName : string) (crd : CustomResourceDefinition)
    (j : nat) (l lj : Captured) (s sj : State W) :
  err l = None →
  notDoneAfter j (establishedCondition crdName crd) l s = Some (lj, sj) →
  err lj = None.
Proof.
  revert l s. induction j as [| j IH]; intros l s He; simpl.
  - by intros [= <- _].
  - rewrite establishedCondition_first_match.
    destruct (find decisive (Conditions (Status_ (clusterCRD l)))) as [k |].
    + destruct (isEstablishedTrue k); [discriminate |].
      rewrite He. by apply IH.
    + destruct (Get (Name (Meta crd)) (world s)) as [[c e] w].
      destruct e; [discriminate |]. by apply IH.
Qed.

(** C8, on the code.  In a run of createUpdateCRD that reaches the
    establishment wait, let the wait have gone through [j] iterations that
    answered "not done" (re-fetching the live object where the code does),
    and let the object now held show NamesAccepted=false as its first
    decisive condition.  That observation does not end the run: the
    closure runs at every tick that is left and once more at the deadline,
    each time logging the conflict reason and nothing else.  But the
    closure returns before its Get, so the held object is never refreshed
    and an Established=true that the cluster reports later is never seen:
    the wait can only end at the deadline, with the timeout error, and
    the run goes on to the Delete. *)
Theorem name_conflict_polls_to_deadline (crdName : string)
    (crd : CustomResourceDefinition) (s s0 sj : State W) (l lj : Captured)
    (j : nat) (c : CustomResourceDefinitionCondition)
    (deleteErr : option error) (w' : W) :
  beforeWait crdName crd s = (Continue l, s0) →
  (j ≤ ticks (world s0))%nat →
  notDoneAfter j (establishedCondition crdName crd) l
    (mkState (world s0) (trace s0 ++ [waitingLog crdName]))
  = Some (lj, sj) →
  find decisive (Conditions (Status_ (clusterCRD lj))) = Some c →
  isNamesRejected c = true →
  Delete (Name (Meta crd)) (world sj) = (deleteErr, w') →
  establishedPoll crdName crd l s0
  = ((Some ErrWaitTimeout, lj),
     mkState (world sj)
       (trace sj ++
          replicate (S (ticks (world s0) - j)) (nameConflictLog crdName c)))
  ∧ createUpdateCRD crdName crd s
    = (Some match deleteErr with
            | Some de => deleteErrorf crdName de ErrWaitTimeout
            | None => ErrWaitTimeout
            end,
       mkState w'
         (trace sj ++
            replicate (S (ticks (world s0) - j)) (nameConflictLog crdName c) ++
            [EvDelete (Name (Meta crd))])).
Proof.
  intros Hb Hj Hskip Hfind Hc HD.
  pose proof (beforeWait_continue_err _ _ _ _ _ Hb) as He.
  pose proof (notDoneAfter_err _ _ _ _ _ _ _ He Hskip) as Hej.
  assert (establishedPoll crdName crd l s0
          = ((Some ErrWaitTimeout, lj),
             mkState (world sj)
               (trace sj ++
                  replicate (S (ticks (world s0) - j)) (nameConflictLog crdName c))))
    as Hp.
  { unfold establishedPoll, Poll. rewrite run_bind. simpl.
    replace (ticks (world s0)) with (j + (ticks (world s0) - j)) at 1 by lia.
    rewrite (pollLoop_skip _ _ _ _ _ _ _ Hskip).
    by apply pollLoop_names_rejected. }
  split; [exact Hp |].
  rewrite (createUpdateCRD_from_wait _ _ _ _ _ Hb), run_bind, Hp. simpl.
  unfold afterWait. unfold_M. simpl. rewrite HD.
  rewrite <- app_assoc. by destruct deleteErr.
Qed.

End NameConflict.

(** The failing run: the object fetched first shows no condition, the
    object fetched by the first iteration of the wait shows the conflict
    first, and the run polls to the deadline and deletes. *)
Lemma name_conflict_polls_to_deadline_witness :
  establishedPoll "v2.CiliumNode" nodeCRD (mkCaptured pendingObject None)
    (mkState (mkWorld [(rejectedObject, None); (currentObject, None)] 119)
       [EvGet nodeName; checkingLog "v2.CiliumNode"])
  = ((Some ErrWaitTimeout, mkCaptured rejectedObject None),
     mkState (mkWorld [(currentObject, None)] 119)
       ([EvGet nodeName; checkingLog "v2.CiliumNode"; waitingLog "v2.CiliumNode";
         EvGet nodeName] ++
          replicate 119
            (nameConflictLog "v2.CiliumNode"
               (cond NamesAccepted ConditionFalse "ShortNamesConflict"))))
  ∧ createUpdateCRD "v2.CiliumNode" nodeCRD
      (start [(pendingObject, None); (rejectedObject, None); (currentObject, None)] 119)
    = (Some ErrWaitTimeout,
       mkState (mkWorld [] 119)
         ([EvGet nodeName; checkingLog "v2.CiliumNode"; waitingLog "v2.CiliumNode";
           EvGet nodeName] ++
            replicate 119
              (nameConflictLog "v2.CiliumNode"
                 (cond NamesAccepted ConditionFalse "ShortNamesConflict")) ++
            [EvDelete nodeName])).
Proof.
  exact (name_conflict_polls_to_deadline "v2.CiliumNode" nodeCRD
           (start [(pendingObject, None); (rejectedObject, None);
                   (currentObject, None)] 119)
           (mkState (mkWorld [(rejectedObject, None); (currentObject, None)] 119)
              [EvGet nodeName; checkingLog "v2.CiliumNode"])
           (mkState (mkWorld [(currentObject, None)] 119)
              [EvGet nodeName; checkingLog "v2.CiliumNode"; waitingLog "v2.CiliumNode";
               EvGet nodeName])
           (mkCaptured pendingObject None) (mkCaptured rejectedObject None)
           1 (cond NamesAccepted ConditionFalse "ShortNamesConflict")
           None (mkWorld [] 119)
           eq_refl ltac:(simpl; lia)
           eq_refl eq_refl eq_refl eq_refl).
Defined.

(** ** Runs on the scripted cluster *)

Lemma failed_wait_deletes_witness :
  ∃ r,
    createUpdateCRD "v2.CiliumNode" nodeCRD
      (start [(pendingObject, None); (emptyCRD, Some serverError);
              (emptyCRD, Some forbidden)] 119)
    = (Some r,
       mkState (mkWorld [] 119)
         ([EvGet nodeName; checkingLog "v2.CiliumNode"; waitingLog "v2.CiliumNode";
           EvGet nodeName] ++ [EvDelete nodeName]))
    ∧ contains (Error r) (Error forbidden) ∧ contains (Error r) (Error serverError).
Proof.
  exact (failed_wait_deletes "v2.CiliumNode" nodeCRD
           (start [(pendingObject, None); (emptyCRD, Some serverError);
                   (emptyCRD, Some forbidden)] 119)
           (mkState (mkWorld [(emptyCRD, Some serverError); (emptyCRD, Some forbidden)] 119)
              [EvGet nodeName; checkingLog "v2.CiliumNode"])
           (mkState (mkWorld [(emptyCRD, Some forbidden)] 119)
              [EvGet nodeName; checkingLog "v2.CiliumNode"; waitingLog "v2.CiliumNode";
               EvGet nodeName])
           (mkCaptured pendingObject None)
           (mkCaptured emptyCRD (Some serverError))
           serverError (Some forbidden) (mkWorld [] 119)
           eq_refl eq_refl eq_refl).
Defined.

Lemma update_phase_skipped_witness :
  updatePhase "v2.CiliumNode" nodeCRD (mkCaptured unlabelledObject None)
    (mkState (mkWorld [] 119) [EvGet nodeName])
  = (Continue (mkCaptured unlabelledObject None),
     mkState (mkWorld [] 119) ([EvGet nodeName] ++ [checkingLog "v2.CiliumNode"]))
  ∧ createUpdateCRD "v2.CiliumNode" nodeCRD (start [(unlabelledObject, None)] 119)
    = (establishedPoll "v2.CiliumNode" nodeCRD (mkCaptured unlabelledObject None)
         ≫= λ '(e, _), afterWait "v2.CiliumNode" nodeCRD e)
        (mkState (mkWorld [] 119) ([EvGet nodeName] ++ [checkingLog "v2.CiliumNode"])).
Proof.
  exact (update_phase_skipped "v2.CiliumNode" nodeCRD
           (start [(unlabelledObject, None)] 119)
           (mkState (mkWorld [] 119) [EvGet nodeName])
           (mkCaptured unlabelledObject None)
           eq_refl (or_intror (or_introl eq_refl))).
Defined.

Lemma idempotent_when_established_first_witness :
  createUpdateCRD "v2.CiliumNode" nodeCRD
    (start [(currentObject, None); (currentObject, None)] 119)
  = (None,
     mkState (mkWorld [(currentObject, None)] 119)
       ([] ++ quietPass "v2.CiliumNode" nodeCRD))
  ∧ createUpdateCRD "v2.CiliumNode" nodeCRD
      (mkState (mkWorld [(currentObject, None)] 119)
         ([] ++ quietPass "v2.CiliumNode" nodeCRD))
    = (None,
       mkState (mkWorld [] 119)
         (([] ++ quietPass "v2.CiliumNode" nodeCRD) ++ quietPass "v2.CiliumNode" nodeCRD))
  ∧ Forall (λ ev, isUpdate ev = false)
      (issued (createUpdateCRD "v2.CiliumNode" nodeCRD)
         (start [(currentObject, None); (currentObject, None)] 119))
  ∧ Forall (λ ev, isUpdate ev = false)
      (issued (createUpdateCRD "v2.CiliumNode" nodeCRD)
         (mkState (mkWorld [(currentObject, None)] 119)
            ([] ++ quietPass "v2.CiliumNode" nodeCRD))).
Proof.
  exact (idempotent_when_established_first "v2.CiliumNode" nodeCRD currentObject
           (cond Established ConditionTrue "InitialNamesAccepted")
           (start [(currentObject, None); (currentObject, None)] 119)
           (mkWorld [(currentObject, None)] 119) (mkWorld [] 119)
           eq_refl eq_refl eq_refl eq_refl eq_refl).
Defined.

(** C7, on the code.  The live object is up to date and its conditions
    report Established=true, and the cluster serves it.  Because a
    NamesAccepted=false entry comes first in the list, the closure of the
    wait returns on that entry at every tick, before it reaches the
    Established entry or the Get: the pass logs the conflict 120 times,
    runs into the deadline, deletes the established definition and returns
    the timeout error.  The same two conditions in the other order give a
    pass that returns nil. *)
Theorem established_crd_deleted_on_name_conflict :
  needsUpdate rejectedObject = false
  ∧ (∃ c, c ∈ Conditions (Status_ rejectedObject)
          ∧ Type_ c = Established ∧ Status c = ConditionTrue)
  ∧ createUpdateCRD "v2.CiliumNode" nodeCRD
      (start [(rejectedObject, None); (emptyCRD, None); (rejectedObject, None)] 119)
    = (Some ErrWaitTimeout,
       mkState (mkWorld [(rejectedObject, None)] 119)
         ([EvGet nodeName; checkingLog "v2.CiliumNode"; waitingLog "v2.CiliumNode"]
          ++ replicate 120
               (nameConflictLog "v2.CiliumNode"
                  (cond NamesAccepted ConditionFalse "ShortNamesConflict"))
          ++ [EvDelete nodeName]))
  ∧ createUpdateCRD "v2.CiliumNode" nodeCRD
      (start [(establishedFirstObject, None); (establishedFirstObject, None)] 119)
    = (None,
       mkState (mkWorld [(establishedFirstObject, None)] 119)
         (quietPass "v2.CiliumNode" nodeCRD)).
Proof.
  split; [reflexivity |]. split.
  { exists (cond Established ConditionTrue "InitialNamesAccepted").
    split; [| done]. unfold rejectedObject, rejectedThenEstablished. simpl.
    apply list_elem_of_In. right. by left. }
  split; by vm_compute.
Qed.

(** The scenarios of the spec, run on the scripted cluster. *)

Example absent_created_established :
  createUpdateCRD "v2.CiliumNode" nodeCRD
    (start [(emptyCRD, Some notFound); (currentObject, None)] 119)
  = (None,
     mkState (mkWorld [] 119)
       [EvGet nodeName;
        EvLog InfoLevel "v2.CiliumNode" None "Creating CRD (CustomResourceDefinition)...";
        EvCreate nodeCRD;
        checkingLog "v2.CiliumNode"; waitingLog "v2.CiliumNode";
        installedLog "v2.CiliumNode"]).
Proof. reflexivity. Qed.

Example outdated_updated_once :
  (createUpdateCRD "v2.CiliumNode" nodeCRD
     (start [(outdatedObject, None); (outdatedObject, None); (currentObject, None)] 119)).1
  = None
  ∧ length (filter (λ ev, isUpdate ev = true)
              (issued (createUpdateCRD "v2.CiliumNode" nodeCRD)
                 (start [(outdatedObject, None); (outdatedObject, None);
                         (currentObject, None)] 119)))
    = 1.
Proof. split; reflexivity. Qed.

Example get_error_returned :
  createUpdateCRD "v2.CiliumNode" nodeCRD (start [(emptyCRD, Some serverError)] 119)
  = (Some serverError, mkState (mkWorld [] 119) [EvGet nodeName]).
Proof. reflexivity. Qed.

(** ** The update poll *)

Section UpdatePoll.
Context {W : Type} `{!Interface W} `{!Timer W}.

(** The closure of the update poll never answers "not done" without an
    error: it ends the poll on every path. *)
Lemma updateCondition_ends_poll (crdName : string) (crd : CustomResourceDefinition)
    (l : Captured) (s : State W) :
  let '(ok, e, _) := (updateCondition crdName crd l s).1 in
  e = None → ok = true.
Proof.
  unfold updateCondition. unfold_M.
  destruct (Get (Name (Meta crd)) (world s)) as [[c e] w]. simpl.
  destruct e as [e |]; simpl; [discriminate |].
  destruct (needsUpdate c); simpl; [| done].
  destruct (Update _ w) as [[c' e'] w']. simpl.
  destruct e' as [e' |]; simpl; [discriminate | done].
Qed.

(** Hence the update poll runs its closure once, whatever time is left. *)
Lemma update_poll_single_shot (crdName : string) (crd : CustomResourceDefinition)
    (n : nat) (l : Captured) (s : State W) :
  pollLoop n (updateCondition crdName crd) l s
  = let '((_, e, l'), s') := updateCondition crdName crd l s in ((e, l'), s').
Proof.
  pose proof (updateCondition_ends_poll crdName crd l s) as H.
  destruct n; simpl; rewrite run_bind;
    destruct (updateCondition crdName crd l s) as [[[ok e] l'] s']; simpl in *;
    destruct e; try done; by rewrite H.
Qed.

End UpdatePoll.

(** C3, on the code.  The cluster holds an object at schema version 1.17;
    the Update of the first iteration of the update poll is refused with a
    conflict; a second attempt would have been served.  The poll does not
    make it: with all 119 ticks left, createUpdateCRD logs the conflict,
    returns it to the caller and leaves the two remaining answers of the
    cluster unread. *)
Theorem update_conflict_surfaces :
  createUpdateCRD "v2.CiliumNode" nodeCRD
    (start [(outdatedObject, None); (outdatedObject, None); (emptyCRD, Some conflict);
            (outdatedObject, None); (currentObject, None)] 119)
  = (Some conflict,
     mkState (mkWorld [(outdatedObject, None); (currentObject, None)] 119)
       [EvGet nodeName;
        checkingLog "v2.CiliumNode";
        EvLog InfoLevel "v2.CiliumNode" None "Updating CRD (CustomResourceDefinition)...";
        EvGet nodeName;
        EvLog DebugLevel "v2.CiliumNode" None "CRD validation is different, updating it...";
        EvUpdate {| Meta := {| Name := nodeName; Labels := Labels (Meta nodeCRD) |};
                    Spec := Spec nodeCRD;
                    Status_ := Status_ outdatedObject |};
        EvLog DebugLevel "v2.CiliumNode" (Some conflict) "Unable to update CRD validation";
        EvLog ErrorLevel "v2.CiliumNode" (Some conflict) "Unable to update CRD"])
  ∧ IsConflict (Some conflict) = true.
Proof. split; reflexivity. Qed.

(** ** The orchestrator *)

Section OrchestratorProperties.
Context {W : Type} `{!Interface W} `{!Timer W}.

(** Running a list of reconcilers stops at the first one that fails:
    the result is its error and the state is the one it left. *)
Lemma runInOrder_first_error (pre post : list (M W (option error)))
    (step : M W (option error)) (s s1 s2 : State W) (e : error) :
  runInOrder pre s = (None, s1) →
  step s1 = (Some e, s2) →
  runInOrder (pre ++ step :: post) s = (Some e, s2).
Proof.
  revert s. induction pre as [| p pre IH]; intros s Hpre Hstep; simpl in *.
  - injection Hpre as <-. by rewrite run_bind, Hstep.
  - rewrite run_bind in *. destruct (p s) as [[e' |] s']; simpl in *.
    + discriminate.
    + by apply IH.
Qed.

Lemma runInOrder_all_succeed (steps : list (M W (option error))) (s : State W) :
  (runInOrder steps s).1 = None →
  ∀ pre step post, steps = pre ++ step :: post →
    ∃ s1 s2, runInOrder pre s = (None, s1) ∧ step s1 = (None, s2).
Proof.
  revert s. induction steps as [| p steps IH]; intros s Hrun pre step post Heq.
  - by destruct pre.
  - simpl in Hrun. rewrite run_bind in Hrun.
    destruct (p s) as [[e' |] s'] eqn:Hp; simpl in Hrun; [discriminate |].
    destruct pre as [| q pre]; simpl in Heq; injection Heq as <- ->.
    + exists s, s'. by split.
    + destruct (IH s' Hrun pre step post eq_refl) as (s1 & s2 & H1 & H2).
      exists s1, s2. split; [| done]. simpl. by rewrite run_bind, Hp.
Qed.

(** C5.  CreateCustomResourceDefinitions runs the reconcilers of the
    network-policy, the cluster-wide network-policy, the endpoint and the
    node kind in that order, then that of the identity kind when the
    identity-allocation mode is the CRD mode, and stops at the first
    error: it is the in-order, stop-at-first-error run of that list. *)
Theorem CreateCustomResourceDefinitions_in_order (docs : EmbeddedCRDs)
    (IdentityAllocationMode : string) (s : State W) :
  CreateCustomResourceDefinitions docs IdentityAllocationMode s
  = runInOrder
      ([createCNPCRD docs; createCCNPCRD docs; createCEPCRD docs; createNodeCRD docs]
       ++ (if String.eqb IdentityAllocationMode IdentityAllocationModeCRD
           then [createIdentityCRD docs] else []))
      s.
Proof.
  unfold CreateCustomResourceDefinitions.
  destruct (String.eqb IdentityAllocationMode IdentityAllocationModeCRD); simpl;
    repeat (rewrite !run_bind;
            match goal with
            | |- context [(?m s).1] => destruct (m s) as [[?|] ?]; simpl; try done
            | |- context [(?m ?s').1] => destruct (m s') as [[?|] ?]; simpl; try done
            end).
Qed.

End OrchestratorProperties.


(** * Further properties of the reconciler *)

(** ** What a run may issue *)

Section OwnEvents.
Context {W : Type} `{!Interface W} `{!Timer W}.
Variables (crdName : string) (crd : CustomResourceDefinition) (P : Event → Prop).
Hypothesis HGet : P (EvGet (Name (Meta crd))).
Hypothesis HCreate : P (EvCreate crd).
Hypothesis HLog : ∀ lvl e msg, P (EvLog lvl crdName e msg).
Hypothesis HUpdate : ∀ c, P (EvUpdate (overwritten crd c)).

Lemma fetchOrCreate_appends : appends (W:=W) P (fetchOrCreate crdName crd).
Proof.
  unfold fetchOrCreate.
  apply appends_bind; [by apply appends_callGet |]. intros [c e].
  destruct (IsNotFound e).
  - apply appends_bind; [by apply appends_emit |]. intros _.
    apply appends_bind; [by apply appends_callCreate |]. intros [c' e'].
    destruct (IsAlreadyExists e'); [apply appends_ret |].
    destruct e'; apply appends_ret.
  - destruct e; apply appends_ret.
Qed.

Lemma appends_callUpdate (c : CustomResourceDefinition) :
  P (EvUpdate c) → appends (W:=W) P (callUpdate c).
Proof.
  intros H s. exists [EvUpdate c]. unfold callUpdate.
  destruct (Update c (world s)). split; [done | by constructor].
Qed.

Lemma updateCondition_appends (l : Captured) :
  appends (W:=W) P (updateCondition crdName crd l).
Proof.
  unfold updateCondition.
  apply appends_bind; [by apply appends_callGet |]. intros [c e].
  destruct e; [apply appends_ret |].
  destruct (needsUpdate c); [| apply appends_ret].
  apply appends_bind; [by apply appends_emit |]. intros _.
  apply appends_bind; [apply appends_callUpdate, HUpdate |]. intros [u e'].
  destruct e'; [| apply appends_ret].
  apply appends_bind; [by apply appends_emit |]. intros _. apply appends_ret.
Qed.

Lemma updatePhase_appends (l : Captured) :
  appends (W:=W) P (updatePhase crdName crd l).
Proof.
  unfold updatePhase.
  apply appends_bind; [by apply appends_emit |]. intros _.
  destruct (updateGate crd (clusterCRD l)); [| apply appends_ret].
  apply appends_bind; [by apply appends_emit |]. intros _.
  apply appends_bind; [apply appends_Poll, updateCondition_appends |].
  intros [e l']. destruct e; [| apply appends_ret].
  apply appends_bind; [by apply appends_emit |]. intros _. apply appends_ret.
Qed.

Lemma beforeWait_appends : appends (W:=W) P (beforeWait crdName crd).
Proof.
  unfold beforeWait. apply appends_bind; [apply fetchOrCreate_appends |].
  intros [e | l]; [apply appends_ret | apply updatePhase_appends].
Qed.

Lemma scanConditions_appends (conds : list CustomResourceDefinitionCondition)
    (l : Captured) :
  appends (W:=W) P (scanConditions crdName conds l).
Proof.
  induction conds as [| c rest IH]; simpl; [apply appends_ret |].
  destruct (String.eqb (Type_ c) Established).
  - destruct (String.eqb (Status c) ConditionTrue); [apply appends_ret | apply IH].
  - destruct (String.eqb (Type_ c) NamesAccepted); [| apply IH].
    destruct (String.eqb (Status c) ConditionFalse); [| apply IH].
    apply appends_bind; [by apply appends_emit |]. intros _. apply appends_ret.
Qed.

Lemma establishedPoll_appends (l : Captured) :
  appends (W:=W) P (establishedPoll crdName crd l).
Proof.
  unfold establishedPoll.
  apply appends_bind; [by apply appends_emit |]. intros _.
  apply appends_Poll. intros l'. unfold establishedCondition.
  apply appends_bind; [apply scanConditions_appends |].
  intros [[done e] |]; [apply appends_ret |].
  apply appends_bind; [by apply appends_callGet |]. intros [c e].
  destruct e; apply appends_ret.
Qed.

Lemma afterWait_appends (e : option error) :
  P (EvDelete (Name (Meta crd))) →
  appends (W:=W) P (afterWait crdName crd e).
Proof.
  intros HDelete. unfold afterWait. destruct e.
  - apply appends_bind; [by apply appends_callDelete |].
    intros [de |]; apply appends_ret.
  - apply appends_bind; [by apply appends_emit |]. intros _. apply appends_ret.
Qed.

End OwnEvents.

Section RunInvariants.
Context {W : Type} `{!Interface W} `{!Timer W}.

(** X1.  Every call of a run of createUpdateCRD is about the descriptor it was
    given: each Get and each Delete names the descriptor, a Create submits
    the descriptor itself, an Update submits an object carrying the
    descriptor's labels and spec, and every log line is written under the
    name given for the logs. *)
Theorem createUpdateCRD_own_events (crdName : string)
    (crd : CustomResourceDefinition) (s : State W) :
  Forall (ownEvent crdName crd) (issued (createUpdateCRD crdName crd) s).
Proof.
  apply appends_issued. unfold createUpdateCRD.
  apply appends_bind; [by apply beforeWait_appends |].
  intros [e | l]; [apply appends_ret |].
  apply appends_bind; [by apply establishedPoll_appends |].
  intros [e l']. by apply afterWait_appends.
Qed.

Lemma delete_placement (crdName : string)
    (crd : CustomResourceDefinition) (s : State W) :
  Forall notDelete (issued (createUpdateCRD crdName crd) s)
  ∨ (∃ evs e,
       issued (createUpdateCRD crdName crd) s = evs ++ [EvDelete (Name (Meta crd))]
       ∧ Forall notDelete evs
       ∧ (createUpdateCRD crdName crd s).1 = Some e).
Proof.
  unfold issued, createUpdateCRD. rewrite run_bind.
  destruct (beforeWait_appends crdName crd notDelete eq_refl eq_refl
              (λ _ _ _, eq_refl) (λ _, eq_refl) s) as (evs1 & H1 & F1).
  destruct (beforeWait crdName crd s) as [[e | l] s0]; simpl in *.
  { left. by rewrite H1, drop_app_length. }
  rewrite run_bind.
  destruct (establishedPoll_appends crdName crd notDelete eq_refl
              (λ _ _ _, eq_refl) l s0) as (evs2 & H2 & F2).
  destruct (establishedPoll crdName crd l s0) as [[e l'] s1]; simpl in *.
  unfold afterWait. destruct e as [e |].
  - right. unfold_M. destruct (Delete (Name (Meta crd)) (world s1)) as [de w].
    exists (evs1 ++ evs2).
    destruct de as [de |]; simpl; eexists;
      (split; [| split; [by apply Forall_app | reflexivity]]);
      by rewrite H2, H1, <- !app_assoc, drop_app_length.
  - left. unfold_M. simpl.
    rewrite H2, H1, <- !app_assoc, drop_app_length.
    apply Forall_app. split; [done |]. apply Forall_app. split; [done |].
    by repeat constructor.
Qed.

(** X2.  A run of createUpdateCRD issues a Delete in one place only: as its
    last call, for the descriptor's name, and then it returns an error.
    In particular a run that returns nil has deleted nothing. *)
Theorem delete_only_after_failed_wait (crdName : string)
    (crd : CustomResourceDefinition) (s : State W) :
  (Forall notDelete (issued (createUpdateCRD crdName crd) s)
   ∨ (∃ evs e,
        issued (createUpdateCRD crdName crd) s = evs ++ [EvDelete (Name (Meta crd))]
        ∧ Forall notDelete evs
        ∧ (createUpdateCRD crdName crd s).1 = Some e))
  ∧ ((createUpdateCRD crdName crd s).1 = None →
     Forall notDelete (issued (createUpdateCRD crdName crd) s)).
Proof.
  split; [apply delete_placement |]. intros Hnil.
  destruct (delete_placement crdName crd s)
    as [H | (evs & e & _ & _ & He)]; [done | congruence].
Qed.

End RunInvariants.

(** ** The polls, iteration by iteration *)

Section PollSteps.
Context {W : Type} `{!Interface W} `{!Timer W}.

Lemma pollLoop_done (n : nat)
    (condition : Captured → M W (bool * option error * Captured))
    (l l' : Captured) (s s' : State W) :
  condition l s = ((true, None, l'), s') →
  pollLoop n condition l s = ((None, l'), s').
Proof. intros H. destruct n; simpl; by rewrite run_bind, H. Qed.

Lemma pollLoop_error (n : nat)
    (condition : Captured → M W (bool * option error * Captured))
    (ok : bool) (e : error) (l l' : Captured) (s s' : State W) :
  condition l s = ((ok, Some e, l'), s') →
  pollLoop n condition l s = ((Some e, l'), s').
Proof. intros H. destruct n; simpl; by rewrite run_bind, H. Qed.

Lemma pollLoop_retry (n : nat)
    (condition : Captured → M W (bool * option error * Captured))
    (l l' : Captured) (s s' : State W) :
  condition l s = ((false, None, l'), s') →
  pollLoop (S n) condition l s = pollLoop n condition l' s'.
Proof. intros H. simpl. by rewrite run_bind, H. Qed.

(** The establishment poll ends with nil only on an object whose first
    decisive condition is Established=true. *)
Lemma pollLoop_nil_established (crdName : string) (crd : CustomResourceDefinition)
    (n : nat) (l l' : Captured) (s s' : State W) :
  pollLoop n (establishedCondition crdName crd) l s = ((None, l'), s') →
  ∃ k, find decisive (Conditions (Status_ (clusterCRD l'))) = Some k
       ∧ isEstablishedTrue k = true.
Proof.
  revert l s. induction n as [| n IH]; intros l s; simpl; rewrite run_bind;
    rewrite establishedCondition_first_match;
    (destruct (find decisive (Conditions (Status_ (clusterCRD l)))) as [k |] eqn:Hfind;
     [ destruct (isEstablishedTrue k) eqn:Hk; simpl;
       destruct (err l); simpl; try discriminate
     | destruct (Get (Name (Meta crd)) (world s)) as [[c e] w]; simpl;
       destruct e; simpl; try discriminate ]).
  all: try (intros [= <- <-]; by eauto).
  all: apply IH.
Qed.

(** The phases before the wait return nil in one case only, the create
    race. *)
Lemma beforeWait_return_nil (crdName : string) (crd : CustomResourceDefinition)
    (s s0 : State W) :
  beforeWait crdName crd s = (Return None, s0) →
  ∃ c e w c' e' w',
    Get (Name (Meta crd)) (world s) = ((c, e), w) ∧ IsNotFound e = true
    ∧ Create crd w = ((c', e'), w') ∧ IsAlreadyExists e' = true.
Proof.
  unfold beforeWait, fetchOrCreate. unfold_M.
  destruct (Get (Name (Meta crd)) (world s)) as [[c e] w] eqn:HG. simpl.
  destruct (IsNotFound e) eqn:HNF; simpl.
  - destruct (Create crd w) as [[c' e'] w'] eqn:HC. simpl.
    destruct (IsAlreadyExists e') eqn:HAE; simpl.
    + intros _. by exists c, e, w, c', e', w'.
    + destruct e' as [e' |]; simpl; [discriminate |].
      unfold updatePhase. unfold_M. simpl.
      destruct (updateGate crd c'); simpl; [| discriminate].
      destruct (Poll _ _ _) as [[pe l'] s1]. simpl.
      destruct pe; simpl; discriminate.
  - destruct e as [e |]; simpl; [discriminate |].
    unfold updatePhase. unfold_M. simpl.
    destruct (updateGate crd c); simpl; [| discriminate].
    destruct (Poll _ _ _) as [[pe l'] s1]. simpl.
    destruct pe; simpl; discriminate.
Qed.

(** X3.  A run of createUpdateCRD returns nil for one of two reasons only:
    another agent won the race to create the object (Get answered
    not-found and Create answered already-exists), or the run reached the
    establishment wait and the wait ended on an object, the last one
    fetched, whose first decisive condition is Established=true. *)
Theorem nil_means_race_or_established (crdName : string)
    (crd : CustomResourceDefinition) (s : State W) :
  (createUpdateCRD crdName crd s).1 = None →
  (∃ c e w c' e' w',
     Get (Name (Meta crd)) (world s) = ((c, e), w) ∧ IsNotFound e = true
     ∧ Create crd w = ((c', e'), w') ∧ IsAlreadyExists e' = true)
  ∨ (∃ l s0 l' s1 k,
       beforeWait crdName crd s = (Continue l, s0)
       ∧ establishedPoll crdName crd l s0 = ((None, l'), s1)
       ∧ find decisive (Conditions (Status_ (clusterCRD l'))) = Some k
       ∧ isEstablishedTrue k = true).
Proof.
  unfold createUpdateCRD. rewrite run_bind.
  destruct (beforeWait crdName crd s) as [[e | l] s0] eqn:Hb; simpl.
  - intros ->. left. by eapply beforeWait_return_nil.
  - rewrite run_bind.
    destruct (establishedPoll crdName crd l s0) as [[e l'] s1] eqn:Hp. simpl.
    destruct e as [e |].
    + unfold afterWait. unfold_M.
      destruct (Delete _ _) as [[de |] w]; simpl; discriminate.
    + intros _. right.
      assert (∃ k, find decisive (Conditions (Status_ (clusterCRD l'))) = Some k
                   ∧ isEstablishedTrue k = true) as (k & Hk1 & Hk2).
      { unfold establishedPoll, Poll in Hp. unfold_M. simpl in Hp.
        by eapply pollLoop_nil_established. }
      by exists l, s0, l', s1, k.
Qed.

End PollSteps.

Lemma nil_means_race_or_established_witness :
  (∃ c e w c' e' w',
     Get (Name (Meta nodeCRD))
       (world (start [(emptyCRD, Some notFound); (pendingObject, None);
                      (currentObject, None)] 119))
     = ((c, e), w) ∧ IsNotFound e = true
     ∧ Create nodeCRD w = ((c', e'), w') ∧ IsAlreadyExists e' = true)
  ∨ (∃ l s0 l' s1 k,
       beforeWait "v2.CiliumNode" nodeCRD
         (start [(emptyCRD, Some notFound); (pendingObject, None);
                 (currentObject, None)] 119)
       = (Continue l, s0)
       ∧ establishedPoll "v2.CiliumNode" nodeCRD l s0 = ((None, l'), s1)
       ∧ find decisive (Conditions (Status_ (clusterCRD l'))) = Some k
       ∧ isEstablishedTrue k = true).
Proof.
  exact (nil_means_race_or_established "v2.CiliumNode" nodeCRD
           (start [(emptyCRD, Some notFound); (pendingObject, None);
                   (currentObject, None)] 119)
           eq_refl).
Defined.

(** ** Errors of the first two calls *)

Section FetchErrors.
Context {W : Type} `{!Interface W} `{!Timer W}.

(** X4.  An error of the first Get other than not-found is returned at once:
    the Get is the only thing the run does; nothing is created, updated
    or deleted. *)
Theorem fetch_error_returned (crdName : string)
    (crd c : CustomResourceDefinition) (e : error) (s : State W) (w1 : W) :
  Get (Name (Meta crd)) (world s) = ((c, Some e), w1) →
  IsNotFound (Some e) = false →
  createUpdateCRD crdName crd s
  = (Some e, mkState w1 (trace s ++ [EvGet (Name (Meta crd))])).
Proof.
  intros HG HNF. unfold createUpdateCRD, beforeWait, fetchOrCreate. unfold_M.
  rewrite HG. simpl in *. by rewrite HNF.
Qed.

(** X5.  After a not-found, an error of Create other than already-exists is
    returned at once: the run is the Get, the log line and the Create; the
    object is not fetched again and nothing is deleted. *)
Theorem create_error_returned (crdName : string)
    (crd c c' : CustomResourceDefinition) (e : option error) (e' : error)
    (s : State W) (w1 w2 : W) :
  Get (Name (Meta crd)) (world s) = ((c, e), w1) →
  IsNotFound e = true →
  Create crd w1 = ((c', Some e'), w2) →
  IsAlreadyExists (Some e') = false →
  createUpdateCRD crdName crd s
  = (Some e',
     mkState w2
       (trace s ++ [EvGet (Name (Meta crd)); creatingLog crdName; EvCreate crd])).
Proof.
  intros HG HNF HC HAE. unfold createUpdateCRD, beforeWait, fetchOrCreate. unfold_M.
  rewrite HG. simpl. rewrite HNF. simpl. rewrite HC. simpl in *. rewrite HAE.
  by rewrite <- !app_assoc.
Qed.

End FetchErrors.

Lemma fetch_error_returned_witness :
  createUpdateCRD "v2.CiliumNode" nodeCRD (start [(emptyCRD, Some serverError)] 119)
  = (Some serverError, mkState (mkWorld [] 119) ([] ++ [EvGet (Name (Meta nodeCRD))])).
Proof.
  exact (fetch_error_returned "v2.CiliumNode" nodeCRD emptyCRD serverError
           (start [(emptyCRD, Some serverError)] 119) (mkWorld [] 119)
           eq_refl eq_refl).
Defined.

Lemma create_error_returned_witness :
  createUpdateCRD "v2.CiliumNode" nodeCRD
    (start [(emptyCRD, Some notFound); (emptyCRD, Some serverError)] 119)
  = (Some serverError,
     mkState (mkWorld [] 119)
       ([] ++ [EvGet (Name (Meta nodeCRD)); creatingLog "v2.CiliumNode";
               EvCreate nodeCRD])).
Proof.
  exact (create_error_returned "v2.CiliumNode" nodeCRD emptyCRD emptyCRD
           (Some notFound) serverError
           (start [(emptyCRD, Some notFound); (emptyCRD, Some serverError)] 119)
           (mkWorld [(emptyCRD, Some serverError)] 119) (mkWorld [] 119)
           eq_refl eq_refl eq_refl eq_refl).
Defined.

(** ** The update phase, case by case *)

Section UpdateCases.
Context {W : Type} `{!Interface W} `{!Timer W}.

Lemma createUpdateCRD_after_fetch (crdName : string) (crd : CustomResourceDefinition)
    (s s0 : State W) (l : Captured) :
  fetchOrCreate crdName crd s = (Continue l, s0) →
  createUpdateCRD crdName crd s
  = match updatePhase crdName crd l s0 with
    | (Return e, s1) => (e, s1)
    | (Continue l', s1) =>
        (establishedPoll crdName crd l' ≫= λ '(e, _), afterWait crdName crd e) s1
    end.
Proof.
  intros Hf. unfold createUpdateCRD, beforeWait. rewrite !run_bind, Hf. simpl.
  by destruct (updatePhase crdName crd l s0) as [[e | l'] s1].
Qed.

Lemma updatePhase_gate_open (crdName : string) (crd : CustomResourceDefinition)
    (l : Captured) (s : State W) :
  updateGate crd (clusterCRD l) = true →
  updatePhase crdName crd l s
  = let s' := mkState (world s) (trace s ++ [checkingLog crdName; updatingLog crdName]) in
    let '((_, e, l'), s1) := updateCondition crdName crd l s' in
    match e with
    | Some e' =>
        (Return e, mkState (world s1) (trace s1 ++ [updateFailedLog crdName e']))
    | None => (Continue (mkCaptured (clusterCRD l') None), s1)
    end.
Proof.
  intros Hg. unfold updatePhase. rewrite run_bind. simpl. rewrite Hg.
  rewrite run_bind. simpl. rewrite run_bind. unfold Poll. simpl.
  rewrite update_poll_single_shot. rewrite <- app_assoc. simpl.
  destruct (updateCondition _ _ _ _) as [[[ok e] l'] s1]. simpl.
  by destruct e.
Qed.

(** X6.  The Update of a stale object fails: createUpdateCRD returns the error
    of that Update after the one attempt, however much of the poll's time
    is left, and deletes nothing. *)
Theorem update_error_returned (crdName : string)
    (crd c u : CustomResourceDefinition) (e : error) (l : Captured)
    (s s0 : State W) (w1 w2 : W) :
  fetchOrCreate crdName crd s = (Continue l, s0) →
  updateGate crd (clusterCRD l) = true →
  Get (Name (Meta crd)) (world s0) = ((c, None), w1) →
  needsUpdate c = true →
  Update (overwritten crd c) w1 = ((u, Some e), w2) →
  createUpdateCRD crdName crd s
  = (Some e,
     mkState w2
       (trace s0 ++
          [checkingLog crdName; updatingLog crdName; EvGet (Name (Meta crd));
           differentLog crdName; EvUpdate (overwritten crd c);
           updateRefusedLog crdName e; updateFailedLog crdName e])).
Proof.
  intros Hf Hg HG Hnu HU.
  rewrite (createUpdateCRD_after_fetch _ _ _ _ _ Hf), updatePhase_gate_open by done.
  unfold updateCondition. unfold_M. simpl. rewrite HG. simpl. rewrite Hnu. simpl.
  unfold overwritten in HU. rewrite HU. simpl.
  by rewrite <- !app_assoc.
Qed.

(** X7.  The Get inside the update poll fails: createUpdateCRD returns that
    error at once; no Update is attempted and nothing is deleted. *)
Theorem update_fetch_error_returned (crdName : string)
    (crd c : CustomResourceDefinition) (e : error) (l : Captured)
    (s s0 : State W) (w1 : W) :
  fetchOrCreate crdName crd s = (Continue l, s0) →
  updateGate crd (clusterCRD l) = true →
  Get (Name (Meta crd)) (world s0) = ((c, Some e), w1) →
  createUpdateCRD crdName crd s
  = (Some e,
     mkState w1
       (trace s0 ++
          [checkingLog crdName; updatingLog crdName; EvGet (Name (Meta crd));
           updateFailedLog crdName e])).
Proof.
  intros Hf Hg HG.
  rewrite (createUpdateCRD_after_fetch _ _ _ _ _ Hf), updatePhase_gate_open by done.
  unfold updateCondition. unfold_M. simpl. rewrite HG. simpl.
  by rewrite <- !app_assoc.
Qed.

(** X8.  A stale object is updated once.  The object submitted is the one just
    fetched with the descriptor's labels and spec written over it; the
    object the Update call returns is dropped, and the establishment wait
    is decided on the conditions fetched before the Update: when those
    show Established=true first, the run ends with nil without fetching
    again. *)
Theorem stale_object_updated_once (crdName : string)
    (crd c u : CustomResourceDefinition) (k : CustomResourceDefinitionCondition)
    (l : Captured) (s s0 : State W) (w1 w2 : W) :
  fetchOrCreate crdName crd s = (Continue l, s0) →
  updateGate crd (clusterCRD l) = true →
  Get (Name (Meta crd)) (world s0) = ((c, None), w1) →
  needsUpdate c = true →
  Update (overwritten crd c) w1 = ((u, None), w2) →
  find decisive (Conditions (Status_ c)) = Some k →
  isEstablishedTrue k = true →
  createUpdateCRD crdName crd s
  = (None,
     mkState w2
       (trace s0 ++
          [checkingLog crdName; updatingLog crdName; EvGet (Name (Meta crd));
           differentLog crdName; EvUpdate (overwritten crd c);
           waitingLog crdName; installedLog crdName])).
Proof.
  intros Hf Hg HG Hnu HU Hfind Hk.
  rewrite (createUpdateCRD_after_fetch _ _ _ _ _ Hf), updatePhase_gate_open by done.
  unfold updateCondition. unfold_M. simpl. rewrite HG. simpl. rewrite Hnu. simpl.
  unfold overwritten in HU. rewrite HU. simpl.
  unfold establishedPoll, Poll. unfold_M. simpl.
  erewrite pollLoop_done.
  2: { rewrite establishedCondition_first_match. simpl. by rewrite Hfind, Hk. }
  unfold afterWait. unfold_M. simpl. by rewrite <- !app_assoc.
Qed.

(** X9.  The object was stale at the first Get but is up to date when the
    update poll fetches it again (another agent has updated it): no Update
    is issued, and the run goes on to the establishment wait with the
    object fetched last. *)
Theorem update_skipped_when_refreshed (crdName : string)
    (crd c : CustomResourceDefinition) (l : Captured)
    (s s0 : State W) (w1 : W) :
  fetchOrCreate crdName crd s = (Continue l, s0) →
  updateGate crd (clusterCRD l) = true →
  Get (Name (Meta crd)) (world s0) = ((c, None), w1) →
  needsUpdate c = false →
  createUpdateCRD crdName crd s
  = (establishedPoll crdName crd (mkCaptured c None)
       ≫= λ '(e, _), afterWait crdName crd e)
      (mkState w1
         (trace s0 ++
            [checkingLog crdName; updatingLog crdName; EvGet (Name (Meta crd))])).
Proof.
  intros Hf Hg HG Hnu.
  rewrite (createUpdateCRD_after_fetch _ _ _ _ _ Hf), updatePhase_gate_open by done.
  unfold updateCondition. unfold_M. simpl. rewrite HG. simpl. rewrite Hnu. simpl.
  by rewrite <- !app_assoc.
Qed.

(** X10.  A live object that carries no schema-version label is never updated,
    although needsUpdate answers true for it: the gate in front of the
    update poll asks for a non-empty label first. *)
Theorem unlabelled_object_not_updated (crdName : string)
    (crd c : CustomResourceDefinition) (s : State W) (w1 : W) :
  Get (Name (Meta crd)) (world s) = ((c, None), w1) →
  schemaLabel c = None →
  needsUpdate c = true
  ∧ Forall (λ ev, isUpdate ev = false) (issued (createUpdateCRD crdName crd) s).
Proof.
  intros HG Hl. unfold schemaLabel in Hl. split.
  { unfold needsUpdate. rewrite Hl. by destruct (Validation (Spec c)). }
  assert (updateGate crd c = false) as Hg.
  { unfold updateGate. rewrite Hl. simpl. by destruct (Validation (Spec crd)). }
  assert (fetchOrCreate crdName crd s
          = (Continue (mkCaptured c None),
             mkState w1 (trace s ++ [EvGet (Name (Meta crd))]))) as Hf.
  { unfold fetchOrCreate. unfold_M. by rewrite HG. }
  unfold issued.
  rewrite (createUpdateCRD_after_fetch _ _ _ _ _ Hf), updatePhase_gate_closed by done.
  rewrite run_bind.
  destruct (establishedPoll_notUpdate crdName crd (mkCaptured c None)
              (mkState w1 ((trace s ++ [EvGet (Name (Meta crd))]) ++ [checkingLog crdName])))
    as (evs1 & H1 & F1).
  destruct (establishedPoll _ _ _ _) as [[e l'] s1]. simpl in *.
  destruct (afterWait_notUpdate crdName crd e s1) as (evs2 & H2 & F2).
  rewrite H2, H1, <- !app_assoc, drop_app_length.
  repeat (apply Forall_cons; split; [done |]).
  by apply Forall_app.
Qed.

(** X11.  The usual first installation: Get answers not-found, Create succeeds
    and returns an object that shows no condition yet, and the object
    fetched by the first iteration of the wait is established.  With at
    least one tick left the run ends with nil after exactly that one more
    Get. *)
Theorem created_then_established (crdName : string)
    (crd c c1 c2 : CustomResourceDefinition) (e : option error)
    (k : CustomResourceDefinitionCondition) (n : nat)
    (s : State W) (w1 w2 w3 : W) :
  Get (Name (Meta crd)) (world s) = ((c, e), w1) →
  IsNotFound e = true →
  Create crd w1 = ((c1, None), w2) →
  updateGate crd c1 = false →
  find decisive (Conditions (Status_ c1)) = None →
  ticks w2 = S n →
  Get (Name (Meta crd)) w2 = ((c2, None), w3) →
  find decisive (Conditions (Status_ c2)) = Some k →
  isEstablishedTrue k = true →
  createUpdateCRD crdName crd s
  = (None,
     mkState w3
       (trace s ++
          [EvGet (Name (Meta crd)); creatingLog crdName; EvCreate crd;
           checkingLog crdName; waitingLog crdName; EvGet (Name (Meta crd));
           installedLog crdName])).
Proof.
  intros HG HNF HC Hg Hnone Hticks HG2 Hfind Hk.
  assert (fetchOrCreate crdName crd s
          = (Continue (mkCaptured c1 None),
             mkState w2 (trace s ++ [EvGet (Name (Meta crd)); creatingLog crdName;
                                     EvCreate crd]))) as Hf.
  { unfold fetchOrCreate. unfold_M. rewrite HG. simpl. rewrite HNF. simpl.
    rewrite HC. simpl. by rewrite <- !app_assoc. }
  rewrite (createUpdateCRD_after_fetch _ _ _ _ _ Hf), updatePhase_gate_closed by done.
  unfold establishedPoll, Poll. rewrite run_bind. simpl. rewrite run_bind. simpl.
  rewrite Hticks.
  erewrite pollLoop_retry.
  2: { rewrite establishedCondition_first_match. simpl. rewrite Hnone, HG2. reflexivity. }
  erewrite pollLoop_done.
  2: { rewrite establishedCondition_first_match. simpl. by rewrite Hfind, Hk. }
  unfold afterWait. unfold_M. simpl. by rewrite <- !app_assoc.
Qed.

End UpdateCases.

Lemma update_error_returned_witness :
  createUpdateCRD "v2.CiliumNode" nodeCRD
    (start [(outdatedObject, None); (outdatedObject, None);
            (emptyCRD, Some conflict)] 119)
  = (Some conflict,
     mkState (mkWorld [] 119)
       ([EvGet nodeName] ++
          [checkingLog "v2.CiliumNode"; updatingLog "v2.CiliumNode";
           EvGet (Name (Meta nodeCRD)); differentLog "v2.CiliumNode";
           EvUpdate (overwritten nodeCRD outdatedObject);
           updateRefusedLog "v2.CiliumNode" conflict;
           updateFailedLog "v2.CiliumNode" conflict])).
Proof.
  exact (update_error_returned "v2.CiliumNode" nodeCRD outdatedObject emptyCRD
           conflict (mkCaptured outdatedObject None)
           (start [(outdatedObject, None); (outdatedObject, None);
                   (emptyCRD, Some conflict)] 119)
           (mkState (mkWorld [(outdatedObject, None); (emptyCRD, Some conflict)] 119)
              [EvGet nodeName])
           (mkWorld [(emptyCRD, Some conflict)] 119) (mkWorld [] 119)
           eq_refl eq_refl eq_refl eq_refl eq_refl).
Defined.

Lemma update_fetch_error_returned_witness :
  createUpdateCRD "v2.CiliumNode" nodeCRD
    (start [(outdatedObject, None); (emptyCRD, Some serverError)] 119)
  = (Some serverError,
     mkState (mkWorld [] 119)
       ([EvGet nodeName] ++
          [checkingLog "v2.CiliumNode"; updatingLog "v2.CiliumNode";
           EvGet (Name (Meta nodeCRD)); updateFailedLog "v2.CiliumNode" serverError])).
Proof.
  exact (update_fetch_error_returned "v2.CiliumNode" nodeCRD emptyCRD serverError
           (mkCaptured outdatedObject None)
           (start [(outdatedObject, None); (emptyCRD, Some serverError)] 119)
           (mkState (mkWorld [(emptyCRD, Some serverError)] 119) [EvGet nodeName])
           (mkWorld [] 119)
           eq_refl eq_refl eq_refl).
Defined.

Lemma stale_object_updated_once_witness :
  createUpdateCRD "v2.CiliumNode" nodeCRD
    (start [(outdatedObject, None); (outdatedObject, None);
            (currentObject, None)] 119)
  = (None,
     mkState (mkWorld [] 119)
       ([EvGet nodeName] ++
          [checkingLog "v2.CiliumNode"; updatingLog "v2.CiliumNode";
           EvGet (Name (Meta nodeCRD)); differentLog "v2.CiliumNode";
           EvUpdate (overwritten nodeCRD outdatedObject);
           waitingLog "v2.CiliumNode"; installedLog "v2.CiliumNode"])).
Proof.
  exact (stale_object_updated_once "v2.CiliumNode" nodeCRD outdatedObject
           currentObject (cond Established ConditionTrue "InitialNamesAccepted")
           (mkCaptured outdatedObject None)
           (start [(outdatedObject, None); (outdatedObject, None);
                   (currentObject, None)] 119)
           (mkState (mkWorld [(outdatedObject, None); (currentObject, None)] 119)
              [EvGet nodeName])
           (mkWorld [(currentObject, None)] 119) (mkWorld [] 119)
           eq_refl eq_refl eq_refl eq_refl eq_refl eq_refl eq_refl).
Defined.

Lemma update_skipped_when_refreshed_witness :
  createUpdateCRD "v2.CiliumNode" nodeCRD
    (start [(outdatedObject, None); (currentObject, None)] 119)
  = (establishedPoll "v2.CiliumNode" nodeCRD (mkCaptured currentObject None)
       ≫= λ '(e, _), afterWait "v2.CiliumNode" nodeCRD e)
      (mkState (mkWorld [] 119)
         ([EvGet nodeName] ++
            [checkingLog "v2.CiliumNode"; updatingLog "v2.CiliumNode";
             EvGet (Name (Meta nodeCRD))])).
Proof.
  exact (update_skipped_when_refreshed "v2.CiliumNode" nodeCRD currentObject
           (mkCaptured outdatedObject None)
           (start [(outdatedObject, None); (currentObject, None)] 119)
           (mkState (mkWorld [(currentObject, None)] 119) [EvGet nodeName])
           (mkWorld [] 119)
           eq_refl eq_refl eq_refl eq_refl).
Defined.

Lemma unlabelled_object_not_updated_witness :
  needsUpdate unlabelledObject = true
  ∧ Forall (λ ev, isUpdate ev = false)
      (issued (createUpdateCRD "v2.CiliumNode" nodeCRD)
         (start [(unlabelledObject, None)] 119)).
Proof.
  exact (unlabelled_object_not_updated "v2.CiliumNode" nodeCRD unlabelledObject
           (start [(unlabelledObject, None)] 119) (mkWorld [] 119)
           eq_refl eq_refl).
Defined.

Lemma created_then_established_witness :
  createUpdateCRD "v2.CiliumNode" nodeCRD
    (start [(emptyCRD, Some notFound); (pendingObject, None);
            (currentObject, None)] 119)
  = (None,
     mkState (mkWorld [] 119)
       ([] ++
          [EvGet (Name (Meta nodeCRD)); creatingLog "v2.CiliumNode"; EvCreate nodeCRD;
           checkingLog "v2.CiliumNode"; waitingLog "v2.CiliumNode";
           EvGet (Name (Meta nodeCRD)); installedLog "v2.CiliumNode"])).
Proof.
  exact (created_then_established "v2.CiliumNode" nodeCRD emptyCRD pendingObject
           currentObject (Some notFound)
           (cond Established ConditionTrue "InitialNamesAccepted") 118
           (start [(emptyCRD, Some notFound); (pendingObject, None);
                   (currentObject, None)] 119)
           (mkWorld [(pendingObject, None); (currentObject, None)] 119)
           (mkWorld [(currentObject, None)] 119) (mkWorld [] 119)
           eq_refl eq_refl eq_refl eq_refl eq_refl eq_refl eq_refl eq_refl eq_refl).
Defined.

(** ** The descriptors *)

(** X12.  The descriptors the builders produce are stamped with the current
    schema version: read back as a live object, a descriptor built by
    createCNPCRD, createCEPCRD, createCCNPCRD or createNodeCRD needs an
    update exactly when its document has no validation schema, and never
    because of its version label.  The descriptor of createIdentityCRD has
    no validation schema, so needsUpdate answers true for it always. *)
Theorem built_descriptors_are_current (ciliumCRD : CustomResourceDefinition) :
  schemaLabel (resWithColumns ciliumCRD) = Some CustomResourceDefinitionSchemaVersion
  ∧ schemaLabel (resPlain ciliumCRD) = Some CustomResourceDefinitionSchemaVersion
  ∧ schemaLabel (resIdentity ciliumCRD) = Some CustomResourceDefinitionSchemaVersion
  ∧ needsUpdate (resWithColumns ciliumCRD)
    = match Validation (Spec ciliumCRD) with None => true | Some _ => false end
  ∧ needsUpdate (resPlain ciliumCRD)
    = match Validation (Spec ciliumCRD) with None => true | Some _ => false end
  ∧ needsUpdate (resIdentity ciliumCRD) = true.
Proof.
  assert (∀ c, Labels (Meta c) = Labels (resObjectMeta ciliumCRD) →
               schemaLabel c = Some CustomResourceDefinitionSchemaVersion) as Hl.
  { intros c Hc. unfold schemaLabel. rewrite Hc. simpl. apply lookup_singleton_eq. }
  assert (∀ c, Labels (Meta c) = Labels (resObjectMeta ciliumCRD) →
               needsUpdate c
               = match Validation (Spec c) with None => true | Some _ => false end)
    as Hn.
  { intros c Hc. unfold needsUpdate. destruct (Validation (Spec c)); [| done].
    pose proof (Hl c Hc) as Hs. unfold schemaLabel in Hs. rewrite Hs.
    destruct comparableCRDSchemaVersion_eq as [-> _].
    unfold versioncheck.LT.
    by rewrite (proj2 (Compare_eq _ _) eq_refl). }
  repeat split; try (by apply Hl); by rewrite Hn.
Qed.

(** ** The orchestrator, on success *)

Section OrchestratorSuccess.
Context {W : Type} `{!Interface W} `{!Timer W}.

(** X13.  CreateCustomResourceDefinitions returns nil only if every reconciler
    it is to run has run, each from the state the one before left, and
    has returned nil: the four fixed kinds, and the identity kind as well
    when the mode is the CRD mode. *)
Theorem orchestrator_nil_means_all_reconciled (docs : EmbeddedCRDs)
    (IdentityAllocationMode : string) (s : State W) :
  (CreateCustomResourceDefinitions docs IdentityAllocationMode s).1 = None →
  ∃ s1 s2 s3 s4,
    createCNPCRD docs s = (None, s1)
    ∧ createCCNPCRD docs s1 = (None, s2)
    ∧ createCEPCRD docs s2 = (None, s3)
    ∧ createNodeCRD docs s3 = (None, s4)
    ∧ if String.eqb IdentityAllocationMode IdentityAllocationModeCRD
      then createIdentityCRD docs s4
           = (None, (CreateCustomResourceDefinitions docs IdentityAllocationMode s).2)
      else (CreateCustomResourceDefinitions docs IdentityAllocationMode s).2 = s4.
Proof.
  unfold CreateCustomResourceDefinitions. rewrite !run_bind.
  destruct (createCNPCRD docs s) as [[e1 |] s1] eqn:H1; simpl; [discriminate |].
  rewrite !run_bind.
  destruct (createCCNPCRD docs s1) as [[e2 |] s2] eqn:H2; simpl; [discriminate |].
  rewrite !run_bind.
  destruct (createCEPCRD docs s2) as [[e3 |] s3] eqn:H3; simpl; [discriminate |].
  rewrite !run_bind.
  destruct (createNodeCRD docs s3) as [[e4 |] s4] eqn:H4; simpl; [discriminate |].
  destruct (String.eqb IdentityAllocationMode IdentityAllocationModeCRD).
  - rewrite !run_bind.
    destruct (createIdentityCRD docs s4) as [[e5 |] s5] eqn:H5; simpl;
      [discriminate |].
    intros _. by exists s1, s2, s3, s4.
  - intros _. by exists s1, s2, s3, s4.
Qed.

End OrchestratorSuccess.

Lemma orchestrator_nil_means_all_reconciled_witness :
  ∃ s1 s2 s3 s4,
    createCNPCRD nodeDocs
      (start [(currentObject, None); (currentObject, None); (currentObject, None);
              (currentObject, None)] 119)
    = (None, s1)
    ∧ createCCNPCRD nodeDocs s1 = (None, s2)
    ∧ createCEPCRD nodeDocs s2 = (None, s3)
    ∧ createNodeCRD nodeDocs s3 = (None, s4)
    ∧ (CreateCustomResourceDefinitions nodeDocs "kvstore"
         (start [(currentObject, None); (currentObject, None); (currentObject, None);
                 (currentObject, None)] 119)).2
      = s4.
Proof.
  exact (orchestrator_nil_means_all_reconciled nodeDocs "kvstore"
           (start [(currentObject, None); (currentObject, None); (currentObject, None);
                   (currentObject, None)] 119)
           eq_refl).
Defined.
